(** * Connection manager of the donation system (src/utils/mongodb.js)

    A shallow embedding of the module that caches a MongoDB client and a
    database handle, provisions the donation collection with its indexes,
    validates ObjectId strings and tears the connection down.

    The two module-level variables [cachedClient] and [cachedDb] are fields of
    an explicit [State]; every [async] function is a computation in a state
    and exception monad.  The MongoDB driver is the environment: its calls
    are modelled by [drv_*] operations whose failures are decided by a script
    of outcomes carried in the [World], so that every theorem quantifies over
    all failure patterns.  Every driver call and every console line is
    appended to a trace, which is what "network activity" and "creation
    calls" are counted on.

    The repository holds the file twice (src/utils and scr/utils); the
    functions modelled here are the same in both but for seven console lines
    and two legacy client options that only the src/ copy has, and the
    model follows the src/ copy. *)

From Stdlib Require Import ZArith NArith Ascii String Lia.
From stdpp Require Import base option list strings gmap fin_maps.

Local Open Scope string_scope.
Local Open Scope list_scope.

(** ** Values of the host language *)

(** A JS string is a sequence of UTF-16 code units. *)
Definition CodeUnit := N.
Definition JsString := list CodeUnit.

Definition code_units (s : string) : JsString :=
  (fun a => N_of_ascii a) <$> list_ascii_of_string s.

#[warnings="-register-all"]
Inductive JsValue : Type :=
| VUndefined
| VNull
| VBool (b : bool)
| VNumber (n : Z)
| VString (s : JsString)
| VObject (props : list (string * JsValue)).

(** [typeof v === 'string'] *)
Definition typeof_is_string (v : JsValue) : bool :=
  match v with
  | VString _ => true
  | _ => false
  end.

(** ** The fragment of regular expressions used by the module *)

Inductive Regex : Type :=
| RClass (ranges : list (CodeUnit * CodeUnit))
| RRepeat (n : nat) (r : Regex).

Definition in_range (c : CodeUnit) (rg : CodeUnit * CodeUnit) : bool :=
  (N.leb (fst rg) c && N.leb c (snd rg))%bool.

Definition in_class (ranges : list (CodeUnit * CodeUnit)) (c : CodeUnit) : bool :=
  existsb (in_range c) ranges.

(** [re_match r s] consumes a prefix of [s] matched by [r] and returns the
    rest.  A class followed by an exact count never backtracks. *)
Fixpoint re_match (r : Regex) (s : JsString) : option JsString :=
  match r with
  | RClass ranges =>
      match s with
      | c :: rest => if in_class ranges c then Some rest else None
      | [] => None
      end
  | RRepeat n r' =>
      (fix rep (k : nat) (s : JsString) : option JsString :=
         match k with
         | O => Some s
         | S k' =>
             match re_match r' s with
             | Some rest => rep k' rest
             | None => None
             end
         end) n s
  end.

(** [/^r$/.test(s)]: without the [m] flag, [^] is the start of the input and
    [$] is the end of the input. *)
Definition regex_test_anchored (r : Regex) (s : JsString) : bool :=
  match re_match r s with
  | Some [] => true
  | _ => false
  end.

(** [[0-9a-fA-F]] *)
Definition hex_class : Regex :=
  RClass [(48, 57); (97, 102); (65, 70)]%N.

(** [/^[0-9a-fA-F]{24}$/] *)
Definition objectid_regex : Regex := RRepeat 24 hex_class.

(** [export function isValidObjectId(id)] *)
Definition isValidObjectId (id : JsValue) : bool :=
  typeof_is_string id &&
  match id with
  | VString s => regex_test_anchored objectid_regex s
  | _ => false
  end.

(** What the specification calls a hexadecimal character: a digit or a
    letter a-f in either case. *)
Definition hex_digits : JsString := code_units "0123456789abcdefABCDEF".

Definition is_hex_char (c : CodeUnit) : Prop := c ∈ hex_digits.

(** ** Handles, errors and the environment bundle *)

Definition ClientId := nat.

Record Db : Type := mkDb { db_client : ClientId; db_name : string }.

Record Collection : Type := mkColl { coll_db : Db; coll_name : string }.

Record Error : Type := mkError { err_message : string; err_stack : string }.

(** [new Error(msg)] *)
Definition new_Error (msg : string) : Error :=
  {| err_message := msg; err_stack := "Error: " +:+ msg |}.

(** The [env] argument: environment bindings are strings or missing. *)
Record Env : Type := mkEnv {
  MONGODB_URI : option string;
  DATABASE_NAME : option string;
  COLLECTION_NAME : option string
}.

(** Truthiness of a binding: [undefined] and the empty string are falsy. *)
Definition truthy (v : option string) : bool :=
  match v with
  | Some s => negb (String.eqb s "")
  | None => false
  end.

(** [v || dflt] *)
Definition or_default (v : option string) (dflt : string) : string :=
  match v with
  | Some s => if String.eqb s "" then dflt else s
  | None => dflt
  end.

(** Options passed to [new MongoClient]. *)
Record ClientOptions : Type := mkOpts {
  maxPoolSize : Z;
  minPoolSize : Z;
  maxIdleTimeMS : Z;
  connectTimeoutMS : Z;
  socketTimeoutMS : Z;
  serverSelectionTimeoutMS : Z;
  retryWrites : bool;
  w : string;
  useNewUrlParser : bool;
  useUnifiedTopology : bool
}.

Definition client_options : ClientOptions :=
  {| maxPoolSize := 5%Z; minPoolSize := 1%Z; maxIdleTimeMS := 30000%Z;
     connectTimeoutMS := 10000%Z; socketTimeoutMS := 45000%Z;
     serverSelectionTimeoutMS := 10000%Z; retryWrites := true;
     w := "majority"; useNewUrlParser := true; useUnifiedTopology := true |}.

(** ** Index specifications *)

Inductive IndexKind : Type := Asc | Desc | Text.

Record IndexSpec : Type := mkIndex {
  ix_keys : list (string * IndexKind);
  ix_unique : bool;
  ix_sparse : bool;
  ix_weights : list (string * nat)
}.

Definition plain_index (field : string) (k : IndexKind) : IndexSpec :=
  {| ix_keys := [(field, k)]; ix_unique := false; ix_sparse := false;
     ix_weights := [] |}.

(** The arguments of the eight [createIndex] calls of [createIndexes], in
    the order of the source. *)
Definition donation_indexes : list IndexSpec :=
  [ plain_index "submittedAt" Desc;
    plain_index "name" Asc;
    plain_index "project" Asc;
    plain_index "payment" Asc;
    {| ix_keys := [("localId", Asc)]; ix_unique := true; ix_sparse := true;
       ix_weights := [] |};
    plain_index "deviceId" Asc;
    plain_index "batchId" Asc;
    {| ix_keys := [("name", Text); ("project", Text); ("content", Text);
                   ("contact", Text)];
       ix_unique := false; ix_sparse := false;
       ix_weights := [("name", 10); ("project", 5); ("content", 3);
                      ("contact", 2)] |} ].

(** ** Trace of observable actions *)

Inductive Level : Type := LLog | LWarn | LError.

Inductive Event : Type :=
| EvConsole (lvl : Level) (args : list string)
| EvNewClient (c : ClientId) (uri : string) (opts : ClientOptions)
| EvConnect (c : ClientId)
| EvPing (c : ClientId)
| EvListCollections (d : Db) (name : string)
| EvCreateCollection (d : Db) (name : string)
| EvCreateIndex (c : Collection) (ix : IndexSpec)
| EvClose (c : ClientId).

(** Construction of a client or a call to the server. *)
Definition is_client_activity (e : Event) : bool :=
  match e with
  | EvConsole _ _ => false
  | _ => true
  end.

Definition is_connect (e : Event) : bool :=
  match e with
  | EvConnect _ => true
  | _ => false
  end.

(** [createCollection] and [createIndex] calls. *)
Definition is_creation (e : Event) : bool :=
  match e with
  | EvCreateCollection _ _ | EvCreateIndex _ _ => true
  | _ => false
  end.

Definition is_create_index (e : Event) : bool :=
  match e with
  | EvCreateIndex _ _ => true
  | _ => false
  end.

(** ** The driver's world and the module state *)

(** [w_topology !! c] is [None] while [c.topology] is undefined and [Some b]
    when [c.topology.isConnected()] answers [b].  [w_server] maps a database
    and collection name to the indexes of that collection.  [w_script] holds
    the outcomes of the next driver calls: [Some e] makes the call reject
    with [e], [None] (and an exhausted script) lets it go through. *)
Record World : Type := mkWorld {
  w_next : ClientId;
  w_topology : gmap nat bool;
  w_server : gmap (string * string) (list IndexSpec);
  w_script : list (option Error)
}.

Record State : Type := mkState {
  cachedClient : option ClientId;
  cachedDb : option Db;
  world : World;
  trace : list Event
}.

Definition set_cachedClient (v : option ClientId) (s : State) : State :=
  {| cachedClient := v; cachedDb := cachedDb s; world := world s;
     trace := trace s |}.

Definition set_cachedDb (v : option Db) (s : State) : State :=
  {| cachedClient := cachedClient s; cachedDb := v; world := world s;
     trace := trace s |}.

Definition set_world (wd : World) (s : State) : State :=
  {| cachedClient := cachedClient s; cachedDb := cachedDb s; world := wd;
     trace := trace s |}.

Definition emit (e : Event) (s : State) : State :=
  {| cachedClient := cachedClient s; cachedDb := cachedDb s;
     world := world s; trace := trace s ++ [e] |}.

(** ** State and exception monad *)

Inductive Result (A : Type) : Type :=
| Ok (a : A)
| Throw (e : Error).
Arguments Ok {A} a.
Arguments Throw {A} e.

Definition M (A : Type) : Type := State -> Result A * State.

Definition ret {A} (a : A) : M A := fun s => (Ok a, s).

Definition throw {A} (e : Error) : M A := fun s => (Throw e, s).

Definition bind {A B} (m : M A) (k : A -> M B) : M B :=
  fun s =>
    match m s with
    | (Ok a, s') => k a s'
    | (Throw e, s') => (Throw e, s')
    end.

(** [try { body } catch (error) { handler }] *)
Definition try_catch {A} (body : M A) (handler : Error -> M A) : M A :=
  fun s =>
    match body s with
    | (Ok a, s') => (Ok a, s')
    | (Throw e, s') => handler e s'
    end.

(** [try { body } finally { fin }], for a [fin] that completes normally. *)
Definition try_finally {A} (body : M A) (fin : M unit) : M A :=
  fun s =>
    match body s with
    | (r, s') =>
        match fin s' with
        | (Ok _, s'') => (r, s'')
        | (Throw e, s'') => (Throw e, s'')
        end
    end.

Definition get_state : M State := fun s => (Ok s, s).

Definition modify (f : State -> State) : M unit := fun s => (Ok tt, f s).

Declare Scope js_scope.
Delimit Scope js_scope with js.
Notation "x <- m ;; k" := (bind m (fun x => k))
  (at level 100, m at next level, right associativity) : js_scope.
Notation "m ;;; k" := (bind m (fun _ => k))
  (at level 100, right associativity) : js_scope.
Local Open Scope js_scope.

Definition console (lvl : Level) (args : list string) : M unit :=
  modify (emit (EvConsole lvl args)).

(** ** The MongoDB driver, as far as the module uses it *)

Global Instance IndexKind_eq_dec : EqDecision IndexKind.
Proof. solve_decision. Defined.

Global Instance IndexSpec_eq_dec : EqDecision IndexSpec.
Proof. solve_decision. Defined.

Definition set_script (sc : list (option Error)) (wd : World) : World :=
  {| w_next := w_next wd; w_topology := w_topology wd;
     w_server := w_server wd; w_script := sc |}.

(** Takes the outcome of the next driver call off the script. *)
Definition next_outcome (wd : World) : option Error * World :=
  (hd None (w_script wd), set_script (tl (w_script wd)) wd).

(** A driver call is recorded, then rejects if the script says so and
    otherwise has its effect on the world. *)
Definition driver_call {A} (ev : Event) (effect : World -> Result A * World)
  : M A :=
  fun s =>
    let s1 := emit ev s in
    match next_outcome (world s1) with
    | (Some e, wd) => (Throw e, set_world wd s1)
    | (None, wd) =>
        match effect wd with
        | (r, wd') => (r, set_world wd' s1)
        end
    end.

Definition set_topology (c : ClientId) (b : bool) (wd : World) : World :=
  {| w_next := w_next wd; w_topology := <[c := b]> (w_topology wd);
     w_server := w_server wd; w_script := w_script wd |}.

Definition set_server (sv : gmap (string * string) (list IndexSpec))
  (wd : World) : World :=
  {| w_next := w_next wd; w_topology := w_topology wd;
     w_server := sv; w_script := w_script wd |}.

(** [new MongoClient(uri, options)]: a fresh handle; the constructor throws
    on a URI it cannot parse, which the script decides. *)
Definition new_MongoClient (uri : string) (opts : ClientOptions) : M ClientId :=
  fun s =>
    let c := w_next (world s) in
    let wd := {| w_next := S c; w_topology := w_topology (world s);
                 w_server := w_server (world s);
                 w_script := w_script (world s) |} in
    driver_call (EvNewClient c uri opts) (fun wd' => (Ok c, wd'))
      (set_world wd s).

(** [client.topology?.isConnected()] *)
Definition topology_isConnected (wd : World) (c : ClientId) : bool :=
  default false (w_topology wd !! c).

(** [client.connect()] *)
Definition drv_connect (c : ClientId) : M unit :=
  driver_call (EvConnect c) (fun wd => (Ok tt, set_topology c true wd)).

(** [client.db().admin().ping()] *)
Definition drv_ping (c : ClientId) : M unit :=
  driver_call (EvPing c) (fun wd => (Ok tt, wd)).

(** [client.db(dbName)] and [db.collection(name)] only build handles. *)
Definition client_db (c : ClientId) (dbName : string) : Db :=
  {| db_client := c; db_name := dbName |}.

Definition db_collection (d : Db) (name : string) : Collection :=
  {| coll_db := d; coll_name := name |}.

(** [db.listCollections({ name }).toArray()] *)
Definition drv_listCollections (d : Db) (name : string) : M (list string) :=
  driver_call (EvListCollections d name)
    (fun wd =>
       match w_server wd !! (db_name d, name) with
       | Some _ => (Ok [name], wd)
       | None => (Ok [], wd)
       end).

(** [db.createCollection(name)]: the server refuses an existing name. *)
Definition drv_createCollection (d : Db) (name : string) : M unit :=
  driver_call (EvCreateCollection d name)
    (fun wd =>
       match w_server wd !! (db_name d, name) with
       | Some _ => (Throw (new_Error "Collection already exists"), wd)
       | None => (Ok tt, set_server (<[(db_name d, name) := []]> (w_server wd)) wd)
       end).

Definition add_index (ix : IndexSpec) (l : list IndexSpec) : list IndexSpec :=
  if decide (ix ∈ l) then l else l ++ [ix].

(** Where the server keeps a collection: database name, collection name. *)
Definition coll_key (c : Collection) : string * string :=
  (db_name (coll_db c), coll_name c).

(** [collection.createIndex(keys, options)] *)
Definition drv_createIndex (c : Collection) (ix : IndexSpec) : M unit :=
  driver_call (EvCreateIndex c ix)
    (fun wd =>
       let old := default [] (w_server wd !! coll_key c) in
       (Ok tt, set_server (<[coll_key c := add_index ix old]> (w_server wd)) wd)).

(** [client.close()] *)
Definition drv_close (c : ClientId) : M unit :=
  driver_call (EvClose c) (fun wd => (Ok tt, set_topology c false wd)).

(** ** The module *)

(** [cachedClient && cachedClient.topology?.isConnected()] *)
Definition cached_live (s : State) : option ClientId :=
  match cachedClient s with
  | Some c => if topology_isConnected (world s) c then Some c else None
  | None => None
  end.

(** The [try { ... } catch (error) { ... }] block of [getMongoClient]. *)
Definition fresh_connection (env : Env) : M ClientId :=
  try_catch
    (if negb (truthy (MONGODB_URI env)) then
       console LError ["MONGODB_URI environment variable is not set"] ;;;
       throw (new_Error "MONGODB_URI environment variable is required")
     else
       console LLog ["Creating new MongoDB connection..."] ;;;
       client <- new_MongoClient (or_default (MONGODB_URI env) "")
                   client_options ;;
       console LLog ["Attempting to connect to MongoDB..."] ;;;
       drv_connect client ;;;
       console LLog ["MongoDB connected successfully"] ;;;
       console LLog ["Pinging MongoDB..."] ;;;
       drv_ping client ;;;
       console LLog ["MongoDB ping successful"] ;;;
       modify (set_cachedClient (Some client)) ;;;
       ret client)
    (fun error =>
       console LError ["Failed to connect to MongoDB:"; err_message error] ;;;
       console LError ["Error stack:"; err_stack error] ;;;
       modify (set_cachedClient None) ;;;
       throw error).

(** [export async function getMongoClient(env)] *)
Definition getMongoClient (env : Env) : M ClientId :=
  s <- get_state ;;
  match cached_live s with
  | Some c =>
      console LLog ["Using cached MongoDB connection"] ;;;
      ret c
  | None => fresh_connection env
  end.

(** [export async function getDatabase(env)] *)
Definition getDatabase (env : Env) : M Db :=
  try_catch
    (client <- getMongoClient env ;;
     let dbName := or_default (DATABASE_NAME env) "donation_system" in
     s <- get_state ;;
     match cachedDb s with
     | Some d => ret d
     | None =>
         modify (set_cachedDb (Some (client_db client dbName))) ;;;
         ret (client_db client dbName)
     end)
    (fun error =>
       console LError ["Failed to get database:"; err_message error] ;;;
       throw error).

(** The body of the [try] block of [createIndexes]. *)
Definition createIndexes_body (collection : Collection) : M unit :=
  drv_createIndex collection (plain_index "submittedAt" Desc) ;;;
  drv_createIndex collection (plain_index "name" Asc) ;;;
  drv_createIndex collection (plain_index "project" Asc) ;;;
  drv_createIndex collection (plain_index "payment" Asc) ;;;
  drv_createIndex collection
    {| ix_keys := [("localId", Asc)]; ix_unique := true; ix_sparse := true;
       ix_weights := [] |} ;;;
  drv_createIndex collection (plain_index "deviceId" Asc) ;;;
  drv_createIndex collection (plain_index "batchId" Asc) ;;;
  drv_createIndex collection
    {| ix_keys := [("name", Text); ("project", Text); ("content", Text);
                   ("contact", Text)];
       ix_unique := false; ix_sparse := false;
       ix_weights := [("name", 10); ("project", 5); ("content", 3);
                      ("contact", 2)] |} ;;;
  console LLog ["Collection indexes created successfully"].

(** [async function createIndexes(collection)] *)
Definition createIndexes (collection : Collection) : M unit :=
  try_catch
    (createIndexes_body collection)
    (fun error =>
       console LWarn ["Failed to create indexes:"; err_message error]).

(** [export async function getDonationCollection(env)] *)
Definition getDonationCollection (env : Env) : M Collection :=
  try_catch
    (db <- getDatabase env ;;
     let collectionName := or_default (COLLECTION_NAME env) "donations" in
     collections <- drv_listCollections db collectionName ;;
     (if Nat.eqb (length collections) 0 then
        console LLog ["Creating collection: " +:+ collectionName] ;;;
        drv_createCollection db collectionName ;;;
        createIndexes (db_collection db collectionName)
      else ret tt) ;;;
     ret (db_collection db collectionName))
    (fun error =>
       console LError ["Failed to get collection:"; err_message error] ;;;
       throw error).

(** [export async function closeMongoConnection()] *)
Definition closeMongoConnection : M unit :=
  s <- get_state ;;
  match cachedClient s with
  | Some c =>
      try_finally
        (try_catch
           (drv_close c ;;;
            console LLog ["MongoDB connection closed"])
           (fun error =>
              console LError ["Error closing MongoDB connection:";
                              err_message error]))
        (modify (set_cachedClient None) ;;;
         modify (set_cachedDb None))
  | None => ret tt
  end.

(** ** Running the module against its environment *)

(** Between two calls the environment may change the driver's world (a
    connection drops, another process touches the server); it cannot touch
    the module's variables or the trace. *)
Definition perturb (f : World -> World) (s : State) : State :=
  set_world (f (world s)) s.

(** The events a computation appends to the trace. *)
Definition events_of {A} (m : M A) (s : State) : list Event :=
  drop (length (trace s)) (trace (snd (m s))).

Definition cold : State :=
  {| cachedClient := None; cachedDb := None;
     world := {| w_next := 0; w_topology := ∅; w_server := ∅; w_script := [] |};
     trace := [] |}.

Definition with_script (sc : list (option Error)) (s : State) : State :=
  set_world (set_script sc (world s)) s.

Definition env_full : Env :=
  {| MONGODB_URI := Some "mongodb://db.example/";
     DATABASE_NAME := Some "testdb";
     COLLECTION_NAME := Some "donations" |}.

Definition boom : Error := new_Error "server selection timed out".

(** A later call of [getMongoClient]: what the environment did to the world
    since the previous call, and the [env] the caller passes. *)
Record Call : Type := mkCall { call_before : World -> World; call_env : Env }.

Fixpoint run_getMongoClient (calls : list Call) (s : State)
  : list (Result ClientId) * State :=
  match calls with
  | [] => ([], s)
  | c :: rest =>
      match getMongoClient (call_env c) (perturb (call_before c) s) with
      | (r, s1) =>
          match run_getMongoClient rest s1 with
          | (rs, s2) => (r :: rs, s2)
          end
      end
  end.

(** The liveness probe answers "connected" at each of the calls. *)
Fixpoint stays_live (calls : list Call) (s : State) : Prop :=
  match calls with
  | [] => True
  | c :: rest =>
      is_Some (cached_live (perturb (call_before c) s)) /\
      stays_live rest
        (snd (getMongoClient (call_env c) (perturb (call_before c) s)))
  end.

(** The operations a process can run on the module, and the environment's
    own moves. *)
Inductive Op : Type :=
| OpGetMongoClient (env : Env)
| OpGetDatabase (env : Env)
| OpGetDonationCollection (env : Env)
| OpClose
| OpEnvironment (f : World -> World).

Definition run_op (o : Op) (s : State) : State :=
  match o with
  | OpGetMongoClient env => snd (getMongoClient env s)
  | OpGetDatabase env => snd (getDatabase env s)
  | OpGetDonationCollection env => snd (getDonationCollection env s)
  | OpClose => snd (closeMongoConnection s)
  | OpEnvironment f => perturb f s
  end.

Definition run_ops (ops : list Op) (s : State) : State :=
  foldl (fun st o => run_op o st) s ops.

Definition is_close (o : Op) : bool :=
  match o with
  | OpClose => true
  | _ => false
  end.

(** [createIndex] on each specification of a list, one after the other,
    then the continuation [k]; [createIndexes_body] is this on
    [donation_indexes]. *)
Fixpoint create_then (collection : Collection) (ixs : list IndexSpec)
  (k : M unit) : M unit :=
  match ixs with
  | [] => k
  | ix :: rest => drv_createIndex collection ix ;;; create_then collection rest k
  end.

(** The state a [createIndex] call leaves behind. *)
Definition index_step (collection : Collection) (s : State) (ix : IndexSpec)
  : State :=
  snd (drv_createIndex collection ix s).

(** ** Frame conditions *)

(** A computation keeps a relation when its final state is always related
    to its initial state. *)
Definition keeps {A} (R : State -> State -> Prop) (m : M A) : Prop :=
  forall s, R s (snd (m s)).

(** No driver call of the script that is still to come rejects. *)
Definition quiet (s : State) : Prop :=
  Forall (fun o => o = None) (w_script (world s)).

(** The module variables and the liveness of every client are the same. *)
Definition same_module (s s' : State) : Prop :=
  cachedClient s' = cachedClient s /\
  cachedDb s' = cachedDb s /\
  w_topology (world s') = w_topology (world s).

(** A cached database handle stays the cached database handle. *)
Definition db_kept (s s' : State) : Prop :=
  forall d, cachedDb s = Some d -> cachedDb s' = Some d.

Definition quiet_kept (s s' : State) : Prop := quiet s -> quiet s'.

(** The collections of the server are still there. *)
Definition collections_kept (s s' : State) : Prop :=
  forall key, is_Some (w_server (world s) !! key) ->
              is_Some (w_server (world s') !! key).

(** The trace grows by events that satisfy [ok]. *)
Definition grows_by (ok : Event -> bool) (s s' : State) : Prop :=
  exists evs, trace s' = trace s ++ evs /\ Forall (fun ev => ok ev = true) evs.

Definition not_creation (ev : Event) : bool := negb (is_creation ev).

(** What [getDonationCollection] does once it has the database handle. *)
Definition provision (db : Db) (collectionName : string) : M Collection :=
  collections <- drv_listCollections db collectionName ;;
  (if Nat.eqb (length collections) 0 then
     console LLog ["Creating collection: " +:+ collectionName] ;;;
     drv_createCollection db collectionName ;;;
     createIndexes (db_collection db collectionName)
   else ret tt) ;;;
  ret (db_collection db collectionName).

(** The state after a [listCollections] that went through. *)
Definition listed (d : Db) (name : string) (s : State) : State :=
  set_world (set_script (tl (w_script (world s))) (world s))
    (emit (EvListCollections d name) s).

(** The state after a [listCollections] and a [createCollection] that went
    through, the collection being new. *)
Definition collection_created (d : Db) (name : string) (s : State) : State :=
  set_world
    (set_server (<[(db_name d, name) := []]> (w_server (world s)))
       (set_script (tl (tl (w_script (world s)))) (world s)))
    (emit (EvCreateCollection d name)
       (emit (EvConsole LLog ["Creating collection: " +:+ name])
          (emit (EvListCollections d name) s))).

(** ** Sample configurations and states *)

Definition env_other_db : Env :=
  {| MONGODB_URI := Some "mongodb://db.example/";
     DATABASE_NAME := Some "archive";
     COLLECTION_NAME := Some "donations" |}.

Definition env_no_uri : Env :=
  {| MONGODB_URI := None; DATABASE_NAME := Some "testdb";
     COLLECTION_NAME := Some "donations" |}.

(** The process after a first [getDatabase] that went through. *)
Definition warm : State := snd (getDatabase env_full cold).

(** The same process once the connection of client 0 has dropped. *)
Definition dropped : State := perturb (set_topology 0 false) warm.

Definition donations_of (d : Db) : Collection := db_collection d "donations".

Definition testdb : Db := {| db_client := 0; db_name := "testdb" |}.

(** The process after a first [getMongoClient] that went through. *)
Definition connected : State := snd (getMongoClient env_full cold).

(** Two later calls: nothing happens before the first; before the second
    another process empties the server, and the caller passes no URI. *)
Definition two_calls : list Call :=
  [ {| call_before := fun wd => wd; call_env := env_full |};
    {| call_before := set_server ∅; call_env := env_no_uri |} ].

(** The process once the donations collection exists, without indexes. *)
Definition provisioned : State := collection_created testdb "donations" warm.

(** A run without a close in which the name changes and the client drops. *)
Definition busy_ops : list Op :=
  [ OpGetDatabase env_other_db;
    OpEnvironment (set_topology 0 false);
    OpGetDonationCollection env_other_db ].

(** A cold process whose seventh driver call, the second [createIndex],
    rejects. *)
Definition cold_flaky : State :=
  with_script [None; None; None; None; None; None; Some boom] cold.

(** ** The health check *)

Record HealthResult : Type := mkHealth { ok : bool; message : string }.

(** [export async function checkMongoHealth(env)] of the src/ copy: it only
    looks at the configuration. *)
Definition checkMongoHealth (env : Env) : M HealthResult :=
  try_catch
    (if negb (truthy (MONGODB_URI env)) then
       ret {| ok := false;
              message := "MONGODB_URI environment variable is not set" |}
     else
       ret {| ok := true; message := "MongoDB URI is configured" |})
    (fun error =>
       ret {| ok := false;
              message := "MongoDB health check failed: " +:+ err_message error |}).

(** [export async function checkMongoHealth(env)] of the scr/ copy: it
    resolves the client and pings.  The [getMongoClient] it calls is the one
    of that copy, which is taken as a parameter here. *)
Module Scr.

Definition checkMongoHealth (getMongoClient : Env -> M ClientId) (env : Env)
  : M HealthResult :=
  try_catch
    (client <- getMongoClient env ;;
     drv_ping client ;;;
     ret {| ok := true; message := "MongoDB is connected" |})
    (fun error =>
       ret {| ok := false;
              message := "MongoDB connection failed: " +:+ err_message error |}).

End Scr.

(** ** More observations on traces and samples *)

Definition is_close_event (e : Event) : bool :=
  match e with
  | EvClose _ => true
  | _ => false
  end.

Definition not_close (e : Event) : bool := negb (is_close_event e).

Definition env_empty_uri : Env :=
  {| MONGODB_URI := Some ""; DATABASE_NAME := None; COLLECTION_NAME := Some "" |}.

Definition env_defaults : Env :=
  {| MONGODB_URI := Some "mongodb://db.example/";
     DATABASE_NAME := None; COLLECTION_NAME := Some "" |}.

(** The name of the database [getDatabase] answers for: the one of the
    cached handle if there is one, else the configured or default name. *)
Definition resolved_db_name (env : Env) (s : State) : string :=
  match cachedDb s with
  | Some d => db_name d
  | None => or_default (DATABASE_NAME env) "donation_system"
  end.

(** The configured or default collection name. *)
Definition collection_name (env : Env) : string :=
  or_default (COLLECTION_NAME env) "donations".

Definition config_error : Error :=
  new_Error "MONGODB_URI environment variable is required".

(** The process after a first [getDonationCollection] that went through. *)
Definition provisioned_full : State := snd (getDonationCollection env_full cold).

(** A cold process whose third driver call, the ping, rejects, and one
    whose fourth, the listing, rejects. *)
Definition cold_ping_fails : State := with_script [None; None; Some boom] cold.

Definition cold_list_fails : State :=
  with_script [None; None; None; Some boom] cold.

(** * Theorems *)

(** ** The ObjectId predicate *)

Section ObjectId.

Lemma hex_class_char (c : CodeUnit) :
  in_class [(48, 57); (97, 102); (65, 70)]%N c = true <-> is_hex_char c.
Proof.
  unfold is_hex_char, in_class, in_range; simpl.
  rewrite !orb_true_iff, !andb_true_iff, !N.leb_le.
  let l := eval vm_compute in hex_digits in change hex_digits with l.
  rewrite !elem_of_cons, elem_of_nil. lia.
Qed.

(** An exact repetition of a class consumes exactly [n] units of the class. *)
Lemma re_match_repeat_class ranges (n : nat) (s rest : JsString) :
  re_match (RRepeat n (RClass ranges)) s = Some rest <->
  exists pre, s = pre ++ rest /\ length pre = n /\
              Forall (fun c => in_class ranges c = true) pre.
Proof.
  revert s. induction n as [|n IH]; intros s; simpl.
  - split.
    + intros [= ->]. exists []. repeat split; constructor.
    + intros (pre & -> & Hlen & _). destruct pre; [reflexivity | discriminate].
  - destruct s as [|c s'].
    + split; [discriminate |].
      intros (pre & Heq & Hlen & _). destruct pre; discriminate.
    + destruct (in_class ranges c) eqn:Hc.
      * simpl in IH. rewrite IH. split.
        -- intros (pre & -> & Hlen & Hall). exists (c :: pre).
           repeat split; [simpl; congruence | constructor; assumption].
        -- intros (pre & Heq & Hlen & Hall).
           destruct pre as [|c' pre]; [discriminate |].
           injection Heq as -> ->. inversion Hall; subst.
           exists pre. repeat split; [simpl in Hlen; congruence | assumption].
      * split; [discriminate |].
        intros (pre & Heq & Hlen & Hall).
        destruct pre as [|c' pre]; [discriminate |].
        injection Heq as -> ->. inversion Hall; subst. congruence.
Qed.

Lemma objectid_regex_test (s : JsString) :
  regex_test_anchored objectid_regex s = true <->
  length s = 24 /\ Forall is_hex_char s.
Proof.
  unfold regex_test_anchored, objectid_regex, hex_class.
  destruct (re_match _ s) as [rest|] eqn:Hm.
  - apply re_match_repeat_class in Hm as (pre & -> & Hlen & Hall).
    destruct rest as [|c rest]; split.
    + intros _. rewrite app_nil_r. split; [assumption |].
      eapply Forall_impl; [exact Hall |]. intros c Hc. by apply hex_class_char.
    + reflexivity.
    + discriminate.
    + intros [Hl _]. rewrite length_app in Hl. simpl in Hl. lia.
  - split; [discriminate |]. intros [Hl Hall].
    assert (re_match (RRepeat 24 (RClass [(48, 57); (97, 102); (65, 70)]%N)) s
            = Some []) as Hs; [| congruence].
    apply re_match_repeat_class. exists s. rewrite app_nil_r.
    repeat split; [assumption |].
    eapply Forall_impl; [exact Hall |]. intros c Hc. by apply hex_class_char.
Qed.

(** C9: isValidObjectId is a pure boolean function of its argument; it
    answers true exactly for a string of 24 hexadecimal characters (digits
    and a-f in either case), hence false for strings of any other length,
    for strings with a character that is not hexadecimal, and for every
    value that is not a string (numbers, null, undefined, booleans,
    objects). *)
Theorem isValidObjectId_iff_24_hex :
  (forall v : JsValue,
      isValidObjectId v = true <->
      exists s, v = VString s /\ length s = 24 /\ Forall is_hex_char s) /\
  (forall s, length s <> 24 -> isValidObjectId (VString s) = false) /\
  (forall s c, c ∈ s -> ~ is_hex_char c -> isValidObjectId (VString s) = false) /\
  (forall n, isValidObjectId (VNumber n) = false) /\
  isValidObjectId VNull = false /\
  isValidObjectId VUndefined = false /\
  (forall b, isValidObjectId (VBool b) = false) /\
  (forall props, isValidObjectId (VObject props) = false).
Proof.
  assert (Hiff : forall v : JsValue,
             isValidObjectId v = true <->
             exists s, v = VString s /\ length s = 24 /\ Forall is_hex_char s).
  { intros v. unfold isValidObjectId. destruct v; cbn [typeof_is_string andb];
      try (split; [discriminate | intros (s0 & Heq & _); discriminate]).
    rewrite objectid_regex_test. split.
    - intros H. eauto.
    - intros (s0 & [= <-] & H). exact H. }
  split; [exact Hiff |].
  repeat split; try reflexivity.
  - intros s Hlen. apply not_true_is_false. rewrite Hiff.
    intros (s0 & [= <-] & Hl & _). contradiction.
  - intros s c Hin Hc. apply not_true_is_false. rewrite Hiff.
    intros (s0 & [= <-] & _ & Hall). apply Hc.
    rewrite Forall_forall in Hall. by apply Hall.
Qed.

End ObjectId.

(** ** Resolving the client *)

Ltac run_m :=
  cbv [getMongoClient fresh_connection bind ret throw try_catch try_finally
       modify get_state console driver_call new_MongoClient drv_connect
       drv_ping drv_close emit set_world set_cachedClient set_cachedDb
       next_outcome set_topology set_script perturb
       cachedClient cachedDb world trace
       w_next w_topology w_server w_script];
  cbn -[or_default].

(** Splits a state into its fields, the script into its first three
    outcomes, and runs the [try] block on each shape. *)
Ltac fresh_cases s :=
  let sc := fresh "sc" in
  destruct s as [? ? [? ? ? sc] ?];
  destruct sc as [|[?|] [|[?|] [|[?|] ?]]];
  run_m.

Ltac trace_eq :=
  eexists; rewrite <- ?app_assoc; simpl; reflexivity.

Section Client.

Implicit Types (s : State) (env : Env) (c : ClientId) (e : Error).

Lemma getMongoClient_cached env s c :
  cached_live s = Some c ->
  getMongoClient env s =
    (Ok c, emit (EvConsole LLog ["Using cached MongoDB connection"]) s).
Proof.
  intros H. unfold getMongoClient, bind, get_state. rewrite H. reflexivity.
Qed.

Lemma getMongoClient_uncached env s :
  cached_live s = None -> getMongoClient env s = fresh_connection env s.
Proof.
  intros H. unfold getMongoClient, bind, get_state. rewrite H. reflexivity.
Qed.

(** Without a URI the [try] block only writes to the console. *)
Lemma fresh_connection_no_uri env s :
  truthy (MONGODB_URI env) = false ->
  fresh_connection env s =
    (Throw (new_Error "MONGODB_URI environment variable is required"),
     {| cachedClient := None; cachedDb := cachedDb s; world := world s;
        trace := trace s ++
          [EvConsole LError ["MONGODB_URI environment variable is not set"];
           EvConsole LError ["Failed to connect to MongoDB:";
                             "MONGODB_URI environment variable is required"];
           EvConsole LError ["Error stack:";
                             "Error: MONGODB_URI environment variable is required"]]
     |}).
Proof.
  intros H. unfold fresh_connection. rewrite H. run_m.
  rewrite <- !app_assoc. reflexivity.
Qed.

(** What the [try] block never touches. *)
Lemma fresh_connection_frame env s :
  cachedDb (snd (fresh_connection env s)) = cachedDb s /\
  w_server (world (snd (fresh_connection env s))) = w_server (world s) /\
  exists evs, trace (snd (fresh_connection env s)) = trace s ++ evs.
Proof.
  destruct (truthy (MONGODB_URI env)) eqn:Hu.
  - unfold fresh_connection. rewrite Hu. fresh_cases s;
      (split; [reflexivity | split; [reflexivity | trace_eq]]).
  - rewrite fresh_connection_no_uri by assumption. simpl.
    split; [reflexivity | split; [reflexivity | eauto]].
Qed.

(** A rejected attempt leaves the client cache empty. *)
Lemma fresh_connection_throw env s e s' :
  fresh_connection env s = (Throw e, s') -> cachedClient s' = None.
Proof.
  destruct (truthy (MONGODB_URI env)) eqn:Hu.
  - unfold fresh_connection. rewrite Hu. fresh_cases s;
      intros [= <- <-] || intros [= <-]; reflexivity.
  - rewrite fresh_connection_no_uri by assumption. intros [= <- <-]. reflexivity.
Qed.

(** A successful attempt: one fresh handle, constructed, connected and
    pinged, in that order, then cached. *)
Lemma fresh_connection_ok env s c s' :
  fresh_connection env s = (Ok c, s') ->
  truthy (MONGODB_URI env) = true /\
  c = w_next (world s) /\
  cachedClient s' = Some c /\
  world s' =
    {| w_next := S c; w_topology := <[c := true]> (w_topology (world s));
       w_server := w_server (world s);
       w_script := drop 3 (w_script (world s)) |} /\
  exists evs, trace s' = trace s ++ evs /\
    filter (fun ev => is_client_activity ev = true) evs =
      [EvNewClient c (or_default (MONGODB_URI env) "") client_options;
       EvConnect c; EvPing c].
Proof.
  destruct (truthy (MONGODB_URI env)) eqn:Hu.
  - unfold fresh_connection. rewrite Hu. fresh_cases s;
      intros [= <- <-] || discriminate;
      (do 4 (split; [reflexivity |]));
      eexists; (split; [rewrite <- ?app_assoc; simpl; reflexivity | reflexivity]).
  - rewrite fresh_connection_no_uri by assumption. discriminate.
Qed.

(** With a URI the [try] block always constructs a fresh client, and issues
    [connect] on it unless the constructor threw. *)
Lemma fresh_connection_attempt env s :
  truthy (MONGODB_URI env) = true ->
  exists evs, trace (snd (fresh_connection env s)) = trace s ++ evs /\
    EvNewClient (w_next (world s)) (or_default (MONGODB_URI env) "")
      client_options ∈ evs /\
    (hd None (w_script (world s)) = None ->
     EvConnect (w_next (world s)) ∈ evs).
Proof.
  intros Hu. unfold fresh_connection. rewrite Hu. fresh_cases s;
    (eexists; split; [rewrite <- ?app_assoc; simpl; reflexivity |];
     split; [set_solver | intros; try discriminate; set_solver]).
Qed.

(** A rejected [connect] or [ping] is rethrown as it is. *)
Lemma fresh_connection_rejected env s e rest :
  truthy (MONGODB_URI env) = true ->
  w_script (world s) = None :: Some e :: rest \/
  w_script (world s) = None :: None :: Some e :: rest ->
  fst (fresh_connection env s) = Throw e.
Proof.
  intros Hu Hsc. unfold fresh_connection. rewrite Hu.
  destruct s as [? ? [? ? ? sc] ?]. simpl in Hsc.
  destruct Hsc as [-> | ->]; run_m; reflexivity.
Qed.

(** With an empty client cache and a URI, getMongoClient starts afresh
    whatever the world looks like: it constructs a new client and connects
    it, and a handle it returns is that new one, connected and pinged. *)
Lemma getMongoClient_empty_cache_fresh env s :
  cachedClient s = None ->
  truthy (MONGODB_URI env) = true ->
  exists evs,
    trace (snd (getMongoClient env s)) = trace s ++ evs /\
    EvNewClient (w_next (world s)) (or_default (MONGODB_URI env) "")
      client_options ∈ evs /\
    (hd None (w_script (world s)) = None ->
     EvConnect (w_next (world s)) ∈ evs) /\
    (forall c, fst (getMongoClient env s) = Ok c ->
       c = w_next (world s) /\
       cachedClient (snd (getMongoClient env s)) = Some c /\
       filter (fun ev => is_client_activity ev = true) evs =
         [EvNewClient c (or_default (MONGODB_URI env) "") client_options;
          EvConnect c; EvPing c]).
Proof.
  intros Hcc Hu.
  assert (cached_live s = None) as Hl by (unfold cached_live; rewrite Hcc; reflexivity).
  rewrite (getMongoClient_uncached env s Hl).
  destruct (fresh_connection_attempt env s Hu) as (evs & Htr & Hnew & Hconn).
  exists evs. split; [exact Htr |]. split; [exact Hnew |]. split; [exact Hconn |].
  intros c Hok.
  destruct (fresh_connection env s) as [r1 s2] eqn:Hrun1. simpl in Hok, Htr.
  subst r1. apply fresh_connection_ok in Hrun1
    as (_ & Hc & Hcc' & _ & evs' & Htr' & Hact).
  split; [exact Hc |]. split; [exact Hcc' |].
  rewrite Htr in Htr'. apply app_inv_head in Htr'. subst evs'. exact Hact.
Qed.

(** C6: when MONGODB_URI is absent and no live cached client exists,
    getMongoClient throws the "MONGODB_URI environment variable is required"
    error; the driver's world is untouched and the call only writes console
    lines: no client is constructed, no connect and no ping is issued. *)
Theorem getMongoClient_missing_uri_fails_early env s :
  MONGODB_URI env = None ->
  cached_live s = None ->
  exists s' evs,
    getMongoClient env s =
      (Throw (new_Error "MONGODB_URI environment variable is required"), s') /\
    world s' = world s /\
    trace s' = trace s ++ evs /\
    Forall (fun ev => is_client_activity ev = false) evs.
Proof.
  intros Habs Hlive. rewrite getMongoClient_uncached by assumption.
  rewrite fresh_connection_no_uri by (rewrite Habs; reflexivity).
  do 2 eexists. split; [reflexivity |]. simpl.
  split; [reflexivity |]. split; [reflexivity |].
  repeat constructor.
Qed.

(** getMongoClient never writes [cachedDb]. *)
Lemma getMongoClient_cachedDb env s :
  cachedDb (snd (getMongoClient env s)) = cachedDb s.
Proof.
  destruct (cached_live s) as [c|] eqn:Hl.
  - rewrite (getMongoClient_cached env s c Hl). reflexivity.
  - rewrite getMongoClient_uncached by assumption.
    apply fresh_connection_frame.
Qed.

(** A call that throws went through the [catch] block. *)
Lemma getMongoClient_throw_clears env s e s' :
  getMongoClient env s = (Throw e, s') -> cachedClient s' = None.
Proof.
  intros H. destruct (cached_live s) as [c|] eqn:Hl.
  - rewrite (getMongoClient_cached env s c Hl) in H. discriminate.
  - rewrite getMongoClient_uncached in H by assumption.
    eapply fresh_connection_throw; eassumption.
Qed.

(** C10: a failing getMongoClient empties the client cache and leaves
    cachedDb exactly as it was before the call, so a handle derived from the
    client that has just been dropped stays cached. *)
Theorem getMongoClient_failure_keeps_cachedDb env s e s' :
  getMongoClient env s = (Throw e, s') ->
  cachedClient s' = None /\ cachedDb s' = cachedDb s.
Proof.
  intros H. split.
  - eapply getMongoClient_throw_clears; eassumption.
  - pose proof (getMongoClient_cachedDb env s) as Hdb.
    rewrite H in Hdb. exact Hdb.
Qed.

(** C2: when the connect or the ping of getMongoClient rejects with [e],
    the call throws that same [e] and leaves cachedClient empty; whatever
    happens to the world afterwards, the next call with a URI does not
    answer from the cache: it constructs a fresh client and connects it,
    and a handle it returns is that fresh one, connected and pinged. *)
Theorem getMongoClient_failure_clears_cache env s e rest :
  cached_live s = None ->
  truthy (MONGODB_URI env) = true ->
  w_script (world s) = None :: Some e :: rest \/
  w_script (world s) = None :: None :: Some e :: rest ->
  exists s',
    getMongoClient env s = (Throw e, s') /\
    cachedClient s' = None /\
    forall (f : World -> World) env',
      truthy (MONGODB_URI env') = true ->
      let s1 := perturb f s' in
      let fresh := w_next (world s1) in
      exists evs,
        trace (snd (getMongoClient env' s1)) = trace s' ++ evs /\
        EvNewClient fresh (or_default (MONGODB_URI env') "") client_options
          ∈ evs /\
        (hd None (w_script (world s1)) = None -> EvConnect fresh ∈ evs) /\
        (forall c, fst (getMongoClient env' s1) = Ok c ->
           c = fresh /\
           filter (fun ev => is_client_activity ev = true) evs =
             [EvNewClient c (or_default (MONGODB_URI env') "") client_options;
              EvConnect c; EvPing c]).
Proof.
  intros Hlive Hu Hsc.
  destruct (getMongoClient env s) as [r s'] eqn:Hrun.
  assert (r = Throw e) as ->.
  { rewrite getMongoClient_uncached in Hrun by assumption.
    pose proof (fresh_connection_rejected env s e rest Hu Hsc) as Hr.
    rewrite Hrun in Hr. exact Hr. }
  pose proof (getMongoClient_throw_clears _ _ _ _ Hrun) as Hcc.
  exists s'. split; [reflexivity |]. split; [exact Hcc |].
  intros f env' Hu' s1 fresh.
  destruct (getMongoClient_empty_cache_fresh env' s1 Hcc Hu')
    as (evs & Htr & Hnew & Hconn & Hok).
  exists evs. split; [exact Htr |]. split; [exact Hnew |]. split; [exact Hconn |].
  intros c Hc. destruct (Hok c Hc) as (? & _ & ?). split; assumption.
Qed.

(** While the probe keeps answering "connected", a run of calls hands out
    the cached handle and leaves the world to the environment. *)
Lemma run_getMongoClient_live calls :
  forall s c,
    cachedClient s = Some c ->
    stays_live calls s ->
    exists s' evs,
      run_getMongoClient calls s = (repeat (Ok c) (length calls), s') /\
      cachedClient s' = Some c /\
      cachedDb s' = cachedDb s /\
      world s' = foldl (fun wd cl => call_before cl wd) (world s) calls /\
      trace s' = trace s ++ evs /\
      Forall (fun ev => is_client_activity ev = false) evs.
Proof.
  induction calls as [|cl calls IH]; intros s c Hc Hlive.
  - exists s, []. simpl. rewrite app_nil_r. repeat split; auto.
  - destruct Hlive as [[c' Hprobe] Hrest]. simpl in Hrest.
    assert (c' = c) as ->.
    { unfold cached_live in Hprobe. simpl in Hprobe. rewrite Hc in Hprobe.
      destruct (topology_isConnected _ c); congruence. }
    simpl. rewrite (getMongoClient_cached _ _ _ Hprobe) in *. simpl in Hrest.
    eapply IH in Hrest as (s' & evs & Hrun & Hc' & Hdb & Hw & Htr & Hev);
      [| exact Hc].
    rewrite Hrun. exists s', (EvConsole LLog ["Using cached MongoDB connection"] :: evs).
    simpl in Hdb, Hw, Htr.
    repeat split; try assumption.
    + rewrite Htr, <- app_assoc. reflexivity.
    + constructor; [reflexivity | assumption].
Qed.

(** C1: a call that finds a cached client whose probe answers "connected"
    returns that client, leaves the world and the cache as they are and
    writes one console line only.  Hence, once a first call has connected
    (issuing exactly one connect), every later call made while the cached
    client is live returns the same handle, and the run adds nothing but
    console lines: the world changes as the environment changes it. *)
Theorem getMongoClient_reuses_live_client :
  (forall env s c,
      cached_live s = Some c ->
      exists s' evs,
        getMongoClient env s = (Ok c, s') /\
        world s' = world s /\
        cachedClient s' = cachedClient s /\
        trace s' = trace s ++ evs /\
        Forall (fun ev => is_client_activity ev = false) evs) /\
  (forall env0 s0 c s1 calls,
      cached_live s0 = None ->
      getMongoClient env0 s0 = (Ok c, s1) ->
      stays_live calls s1 ->
      exists evs0 s2 evs,
        trace s1 = trace s0 ++ evs0 /\
        filter (fun ev => is_connect ev = true) evs0 = [EvConnect c] /\
        run_getMongoClient calls s1 = (repeat (Ok c) (length calls), s2) /\
        cachedClient s2 = Some c /\
        world s2 = foldl (fun wd cl => call_before cl wd) (world s1) calls /\
        trace s2 = trace s1 ++ evs /\
        Forall (fun ev => is_client_activity ev = false) evs).
Proof.
  split.
  - intros env s c Hl. rewrite (getMongoClient_cached env s c Hl).
    do 2 eexists. split; [reflexivity |]. simpl.
    repeat split. repeat constructor.
  - intros env0 s0 c s1 calls Hl Hrun Hlive.
    rewrite getMongoClient_uncached in Hrun by assumption.
    destruct (truthy (MONGODB_URI env0)) eqn:Hu.
    2:{ rewrite fresh_connection_no_uri in Hrun by assumption. discriminate. }
    assert (exists evs0, trace s1 = trace s0 ++ evs0 /\
              filter (fun ev => is_connect ev = true) evs0 = [EvConnect c])
      as (evs0 & Htr0 & Hconn).
    { revert Hrun. unfold fresh_connection. rewrite Hu. fresh_cases s0;
        intros [= <- <-] || discriminate;
        (eexists; split; [rewrite <- ?app_assoc; simpl; reflexivity | reflexivity]). }
    apply fresh_connection_ok in Hrun as (_ & _ & Hc & _).
    destruct (run_getMongoClient_live calls s1 c Hc Hlive)
      as (s2 & evs & Hr & Hc2 & _ & Hw & Htr & Hev).
    exists evs0, s2, evs. repeat split; assumption.
Qed.

End Client.

(** ** Frame rules *)

Section Frame.

Context (R : State -> State -> Prop) `{!PreOrder R}.

Lemma keeps_ret {A} (a : A) : keeps R (ret a).
Proof. intros s. simpl. reflexivity. Qed.

Lemma keeps_throw {A} (e : Error) : keeps R (@throw A e).
Proof. intros s. simpl. reflexivity. Qed.

Lemma keeps_get_state : keeps R get_state.
Proof. intros s. simpl. reflexivity. Qed.

Lemma keeps_bind {A B} (m : M A) (k : A -> M B) :
  keeps R m -> (forall a, keeps R (k a)) -> keeps R (bind m k).
Proof.
  intros Hm Hk s. unfold bind. specialize (Hm s).
  destruct (m s) as [[a|e] s1]; simpl in *; [| exact Hm].
  etransitivity; [exact Hm | apply Hk].
Qed.

Lemma keeps_try_catch {A} (m : M A) (h : Error -> M A) :
  keeps R m -> (forall e, keeps R (h e)) -> keeps R (try_catch m h).
Proof.
  intros Hm Hh s. unfold try_catch. specialize (Hm s).
  destruct (m s) as [[a|e] s1]; simpl in *; [exact Hm |].
  etransitivity; [exact Hm | apply Hh].
Qed.

Lemma keeps_try_finally {A} (m : M A) (fin : M unit) :
  keeps R m -> keeps R fin -> keeps R (try_finally m fin).
Proof.
  intros Hm Hf s. unfold try_finally. specialize (Hm s).
  destruct (m s) as [r s1]. specialize (Hf s1).
  destruct (fin s1) as [[u|e] s2]; simpl in *; etransitivity; eassumption.
Qed.

Lemma keeps_create_then collection ixs (k : M unit) :
  (forall ix, keeps R (drv_createIndex collection ix)) ->
  keeps R k -> keeps R (create_then collection ixs k).
Proof.
  intros Hix Hk. induction ixs as [|ix ixs IH]; simpl; [exact Hk |].
  apply keeps_bind; [apply Hix | intros _; exact IH].
Qed.

End Frame.

(** Decomposes a computation along its control structure. *)
Ltac frame_step :=
  match goal with
  | |- keeps _ (bind _ _) =>
      apply keeps_bind; [typeclasses eauto | | intros ?]
  | |- keeps _ (try_catch _ _) =>
      apply keeps_try_catch; [typeclasses eauto | | intros ?]
  | |- keeps _ (try_finally _ _) =>
      apply keeps_try_finally; [typeclasses eauto | |]
  | |- keeps _ (ret _) => apply keeps_ret; typeclasses eauto
  | |- keeps _ (throw _) => apply keeps_throw; typeclasses eauto
  | |- keeps _ get_state => apply keeps_get_state; typeclasses eauto
  | |- keeps _ (if ?b then _ else _) => destruct b
  | |- keeps _ (match ?x with _ => _ end) => destruct x
  end.

Create HintDb frame discriminated.

Ltac frame := repeat frame_step; eauto with frame.

(** The state after a driver call: the event is recorded, and the world is
    the popped one, possibly after the call's effect. *)
Lemma driver_call_state {A} ev (eff : World -> Result A * World) s :
  exists wd,
    snd (driver_call ev eff s) = set_world wd (emit ev s) /\
    (wd = set_script (tl (w_script (world s))) (world s) \/
     wd = snd (eff (set_script (tl (w_script (world s))) (world s)))).
Proof.
  unfold driver_call, next_outcome. simpl.
  destruct (hd None (w_script (world s))) as [e|].
  - eexists. split; [reflexivity | left; reflexivity].
  - destruct (eff _) as [r wd'] eqn:He. eexists. split; [reflexivity |].
    right. reflexivity.
Qed.

Global Instance db_kept_preorder : PreOrder db_kept.
Proof. split; [intros s d H; exact H | intros s1 s2 s3 H1 H2 d H; eauto]. Qed.

Global Instance same_module_preorder : PreOrder same_module.
Proof.
  split.
  - intros s. repeat split.
  - intros s1 s2 s3 (?&?&?) (?&?&?). repeat split; congruence.
Qed.

Global Instance quiet_kept_preorder : PreOrder quiet_kept.
Proof. split; [intros s H; exact H | intros s1 s2 s3 H1 H2 H; eauto]. Qed.

Global Instance collections_kept_preorder : PreOrder collections_kept.
Proof. split; [intros s k H; exact H | intros s1 s2 s3 H1 H2 k H; eauto]. Qed.

Global Instance grows_by_preorder ok : PreOrder (grows_by ok).
Proof.
  split.
  - intros s. exists []. rewrite app_nil_r. split; [reflexivity | constructor].
  - intros s1 s2 s3 (e1 & H1 & F1) (e2 & H2 & F2). exists (e1 ++ e2).
    rewrite H2, H1, app_assoc. split; [reflexivity | by apply Forall_app].
Qed.

Section Primitives.

Context {A : Type} (ev : Event) (eff : World -> Result A * World).

Lemma driver_call_db_kept : keeps db_kept (driver_call ev eff).
Proof.
  intros s. destruct (driver_call_state ev eff s) as (wd & -> & _).
  intros d H. exact H.
Qed.

Lemma driver_call_same_module :
  (forall wd, w_topology (snd (eff wd)) = w_topology wd) ->
  keeps same_module (driver_call ev eff).
Proof.
  intros Heff s. destruct (driver_call_state ev eff s) as (wd & -> & [-> | ->]);
    repeat split; simpl. rewrite Heff. reflexivity.
Qed.

Lemma driver_call_quiet_kept :
  (forall wd, w_script (snd (eff wd)) = w_script wd) ->
  keeps quiet_kept (driver_call ev eff).
Proof.
  intros Heff s Hq. unfold quiet in *.
  assert (Forall (fun o : option Error => o = None) (tl (w_script (world s))))
    as Htl by (destruct (w_script (world s)); [constructor | by inversion Hq]).
  destruct (driver_call_state ev eff s) as (wd & -> & [-> | ->]); simpl;
    [| rewrite Heff]; exact Htl.
Qed.

Lemma driver_call_collections_kept :
  (forall wd key, is_Some (w_server wd !! key) ->
                  is_Some (w_server (snd (eff wd)) !! key)) ->
  keeps collections_kept (driver_call ev eff).
Proof.
  intros Heff s key Hk.
  destruct (driver_call_state ev eff s) as (wd & -> & [-> | ->]); simpl;
    [exact Hk | apply Heff; exact Hk].
Qed.

Lemma driver_call_grows_by ok :
  ok ev = true -> keeps (grows_by ok) (driver_call ev eff).
Proof.
  intros Hok s. destruct (driver_call_state ev eff s) as (wd & -> & _).
  exists [ev]. split; [reflexivity | by constructor].
Qed.

End Primitives.

(** ** Frames of the driver calls and of the console *)

Section ModuleFrames.

Implicit Types (c : ClientId) (d : Db) (name : string) (ix : IndexSpec).

Lemma console_db_kept lvl args : keeps db_kept (console lvl args).
Proof. intros s d H. exact H. Qed.

Lemma console_same_module lvl args : keeps same_module (console lvl args).
Proof. intros s. repeat split. Qed.

Lemma console_quiet_kept lvl args : keeps quiet_kept (console lvl args).
Proof. intros s H. exact H. Qed.

Lemma console_collections_kept lvl args :
  keeps collections_kept (console lvl args).
Proof. intros s key H. exact H. Qed.

Lemma console_grows_by ok lvl args :
  ok (EvConsole lvl args) = true -> keeps (grows_by ok) (console lvl args).
Proof. intros Hok s. exists [EvConsole lvl args]. split; [reflexivity | by constructor]. Qed.

Lemma set_cachedClient_db_kept v : keeps db_kept (modify (set_cachedClient v)).
Proof. intros s d H. exact H. Qed.

Lemma set_cachedClient_quiet_kept v :
  keeps quiet_kept (modify (set_cachedClient v)).
Proof. intros s H. exact H. Qed.

Lemma set_cachedClient_collections_kept v :
  keeps collections_kept (modify (set_cachedClient v)).
Proof. intros s key H. exact H. Qed.

Lemma set_cachedClient_grows_by ok v :
  keeps (grows_by ok) (modify (set_cachedClient v)).
Proof. intros s. exists []. simpl. rewrite app_nil_r. split; [reflexivity | constructor]. Qed.

Lemma set_cachedDb_quiet_kept v : keeps quiet_kept (modify (set_cachedDb v)).
Proof. intros s H. exact H. Qed.

Lemma set_cachedDb_collections_kept v :
  keeps collections_kept (modify (set_cachedDb v)).
Proof. intros s key H. exact H. Qed.

Lemma set_cachedDb_grows_by ok v : keeps (grows_by ok) (modify (set_cachedDb v)).
Proof. intros s. exists []. simpl. rewrite app_nil_r. split; [reflexivity | constructor]. Qed.

(** The constructor first takes a fresh handle, then behaves as a call. *)
Lemma new_MongoClient_keeps (R : State -> State -> Prop) `{!PreOrder R} uri opts :
  (forall s n, R s (set_world
                      {| w_next := n; w_topology := w_topology (world s);
                         w_server := w_server (world s);
                         w_script := w_script (world s) |} s)) ->
  (forall ev (eff : World -> Result ClientId * World),
      (forall wd, snd (eff wd) = wd) -> keeps R (driver_call ev eff)) ->
  keeps R (new_MongoClient uri opts).
Proof.
  intros Hfresh Hcall s. unfold new_MongoClient.
  etransitivity; [apply Hfresh |]. apply Hcall; reflexivity.
Qed.

Lemma new_MongoClient_db_kept uri opts : keeps db_kept (new_MongoClient uri opts).
Proof.
  apply new_MongoClient_keeps; [typeclasses eauto | |].
  - intros s n d H. exact H.
  - intros. apply driver_call_db_kept.
Qed.

Lemma new_MongoClient_quiet_kept uri opts :
  keeps quiet_kept (new_MongoClient uri opts).
Proof.
  apply new_MongoClient_keeps; [typeclasses eauto | |].
  - intros s n H. exact H.
  - intros ev eff Heff. apply driver_call_quiet_kept.
    intros wd. by rewrite Heff.
Qed.

Lemma new_MongoClient_collections_kept uri opts :
  keeps collections_kept (new_MongoClient uri opts).
Proof.
  apply new_MongoClient_keeps; [typeclasses eauto | |].
  - intros s n key H. exact H.
  - intros ev eff Heff. apply driver_call_collections_kept.
    intros wd key H. by rewrite Heff.
Qed.

Lemma new_MongoClient_grows_by uri opts :
  keeps (grows_by not_creation) (new_MongoClient uri opts).
Proof.
  intros s. unfold new_MongoClient.
  match goal with
  | |- grows_by _ _ (snd (driver_call ?ev ?eff ?s1)) =>
      destruct (driver_call_state ev eff s1) as (wd & -> & _); exists [ev]
  end.
  split; [reflexivity | by constructor].
Qed.

Lemma server_insert_kept (sv : gmap (string * string) (list IndexSpec))
  k v key :
  is_Some (sv !! key) -> is_Some (<[k := v]> sv !! key).
Proof.
  intros H. destruct (decide (k = key)) as [-> | Hne].
  - rewrite lookup_insert_eq. eauto.
  - by rewrite lookup_insert_ne.
Qed.

Lemma drv_calls_db_kept :
  (forall c, keeps db_kept (drv_connect c)) /\
  (forall c, keeps db_kept (drv_ping c)) /\
  (forall c, keeps db_kept (drv_close c)) /\
  (forall d name, keeps db_kept (drv_listCollections d name)) /\
  (forall d name, keeps db_kept (drv_createCollection d name)) /\
  (forall cl ix, keeps db_kept (drv_createIndex cl ix)).
Proof. repeat split; intros; apply driver_call_db_kept. Qed.

Lemma drv_calls_same_module :
  (forall d name, keeps same_module (drv_listCollections d name)) /\
  (forall d name, keeps same_module (drv_createCollection d name)) /\
  (forall cl ix, keeps same_module (drv_createIndex cl ix)).
Proof.
  repeat split; intros; apply driver_call_same_module; intros wd; simpl;
    try destruct (w_server wd !! _); reflexivity.
Qed.

Lemma drv_calls_quiet_kept :
  (forall c, keeps quiet_kept (drv_connect c)) /\
  (forall c, keeps quiet_kept (drv_ping c)) /\
  (forall c, keeps quiet_kept (drv_close c)) /\
  (forall d name, keeps quiet_kept (drv_listCollections d name)) /\
  (forall d name, keeps quiet_kept (drv_createCollection d name)) /\
  (forall cl ix, keeps quiet_kept (drv_createIndex cl ix)).
Proof.
  repeat split; intros; apply driver_call_quiet_kept; intros wd; simpl;
    try destruct (w_server wd !! _); reflexivity.
Qed.

Lemma drv_calls_collections_kept :
  (forall c, keeps collections_kept (drv_connect c)) /\
  (forall c, keeps collections_kept (drv_ping c)) /\
  (forall c, keeps collections_kept (drv_close c)) /\
  (forall d name, keeps collections_kept (drv_listCollections d name)) /\
  (forall d name, keeps collections_kept (drv_createCollection d name)) /\
  (forall cl ix, keeps collections_kept (drv_createIndex cl ix)).
Proof.
  repeat split; intros; apply driver_call_collections_kept; intros wd key H;
    simpl; try destruct (w_server wd !! (_, _)); simpl;
    try exact H; by apply server_insert_kept.
Qed.

Lemma drv_calls_grows_by :
  (forall c, keeps (grows_by not_creation) (drv_connect c)) /\
  (forall c, keeps (grows_by not_creation) (drv_ping c)) /\
  (forall c, keeps (grows_by not_creation) (drv_close c)) /\
  (forall d name, keeps (grows_by not_creation) (drv_listCollections d name)).
Proof. repeat split; intros; by apply driver_call_grows_by. Qed.

End ModuleFrames.

#[local] Hint Resolve console_db_kept console_same_module console_quiet_kept
  console_collections_kept set_cachedClient_db_kept set_cachedClient_quiet_kept
  set_cachedClient_collections_kept set_cachedClient_grows_by
  set_cachedDb_quiet_kept set_cachedDb_collections_kept set_cachedDb_grows_by
  new_MongoClient_db_kept new_MongoClient_quiet_kept
  new_MongoClient_collections_kept new_MongoClient_grows_by : frame.
#[local] Hint Extern 1 (keeps (grows_by _) (console _ _)) =>
  apply console_grows_by; reflexivity : frame.
#[local] Hint Extern 2 (keeps db_kept _) => apply drv_calls_db_kept : frame.
#[local] Hint Extern 2 (keeps same_module _) => apply drv_calls_same_module : frame.
#[local] Hint Extern 2 (keeps quiet_kept _) => apply drv_calls_quiet_kept : frame.
#[local] Hint Extern 2 (keeps collections_kept _) =>
  apply drv_calls_collections_kept : frame.
#[local] Hint Extern 2 (keeps (grows_by not_creation) _) =>
  apply drv_calls_grows_by : frame.

(** ** Frames of the module's functions *)

Section FunctionFrames.

Implicit Types (s : State) (env : Env).

Lemma getMongoClient_db_kept env : keeps db_kept (getMongoClient env).
Proof. unfold getMongoClient, fresh_connection. frame. Qed.

Lemma getMongoClient_quiet_kept env : keeps quiet_kept (getMongoClient env).
Proof. unfold getMongoClient, fresh_connection. frame. Qed.

Lemma getMongoClient_collections_kept env :
  keeps collections_kept (getMongoClient env).
Proof. unfold getMongoClient, fresh_connection. frame. Qed.

Lemma getMongoClient_no_creation env :
  keeps (grows_by not_creation) (getMongoClient env).
Proof. unfold getMongoClient, fresh_connection. frame. Qed.

Lemma getDatabase_unfold env s :
  getDatabase env s =
    match getMongoClient env s with
    | (Ok c, s1) =>
        match cachedDb s1 with
        | Some d => (Ok d, s1)
        | None =>
            (Ok (client_db c (or_default (DATABASE_NAME env) "donation_system")),
             set_cachedDb
               (Some (client_db c
                        (or_default (DATABASE_NAME env) "donation_system"))) s1)
        end
    | (Throw e, s1) =>
        (Throw e,
         emit (EvConsole LError ["Failed to get database:"; err_message e]) s1)
    end.
Proof.
  unfold getDatabase, try_catch, bind, get_state.
  destruct (getMongoClient env s) as [[c|e] s1]; [| reflexivity].
  destruct (cachedDb s1); reflexivity.
Qed.

Lemma getDatabase_db_kept env : keeps db_kept (getDatabase env).
Proof.
  intros s d Hd. rewrite getDatabase_unfold.
  pose proof (getMongoClient_db_kept env s d Hd) as H.
  destruct (getMongoClient env s) as [[c|e] s1]; simpl in *; [| exact H].
  rewrite H. exact H.
Qed.

Lemma getDatabase_quiet_kept env : keeps quiet_kept (getDatabase env).
Proof.
  pose proof (getMongoClient_quiet_kept env).
  unfold getDatabase. frame.
Qed.

Lemma getDatabase_collections_kept env :
  keeps collections_kept (getDatabase env).
Proof.
  pose proof (getMongoClient_collections_kept env).
  unfold getDatabase. frame.
Qed.

Lemma getDatabase_no_creation env : keeps (grows_by not_creation) (getDatabase env).
Proof.
  pose proof (getMongoClient_no_creation env).
  unfold getDatabase. frame.
Qed.

(** The [try] block of [createIndexes] is [createIndex] on the eight
    specifications in turn, then the console line. *)
Lemma createIndexes_body_unfold collection :
  createIndexes_body collection =
    create_then collection donation_indexes
      (console LLog ["Collection indexes created successfully"]).
Proof. reflexivity. Qed.

Lemma createIndexes_keeps (R : State -> State -> Prop) `{!PreOrder R} collection :
  (forall ix, keeps R (drv_createIndex collection ix)) ->
  (forall lvl args, keeps R (console lvl args)) ->
  keeps R (createIndexes collection).
Proof.
  intros Hix Hcon. unfold createIndexes. rewrite createIndexes_body_unfold.
  apply keeps_try_catch; [typeclasses eauto | | intros e; apply Hcon].
  apply keeps_create_then; [typeclasses eauto | exact Hix | apply Hcon].
Qed.

Lemma createIndexes_db_kept collection : keeps db_kept (createIndexes collection).
Proof. apply createIndexes_keeps; [typeclasses eauto | |]; intros; frame. Qed.

Lemma createIndexes_same_module collection :
  keeps same_module (createIndexes collection).
Proof. apply createIndexes_keeps; [typeclasses eauto | |]; intros; frame. Qed.

Lemma createIndexes_quiet_kept collection :
  keeps quiet_kept (createIndexes collection).
Proof. apply createIndexes_keeps; [typeclasses eauto | |]; intros; frame. Qed.

Lemma createIndexes_collections_kept collection :
  keeps collections_kept (createIndexes collection).
Proof. apply createIndexes_keeps; [typeclasses eauto | |]; intros; frame. Qed.

Lemma getDonationCollection_db_kept env :
  keeps db_kept (getDonationCollection env).
Proof.
  pose proof (getDatabase_db_kept env).
  pose proof createIndexes_db_kept.
  unfold getDonationCollection. frame.
Qed.

End FunctionFrames.

(** ** The database handle *)

Section Database.

Implicit Types (s : State) (env : Env) (d : Db).

Lemma run_op_db_kept o s : is_close o = false -> db_kept s (run_op o s).
Proof.
  destruct o; simpl; intros Hc; try discriminate.
  - apply getMongoClient_db_kept.
  - apply getDatabase_db_kept.
  - apply getDonationCollection_db_kept.
  - intros d H. exact H.
Qed.

Lemma run_ops_db_kept ops :
  forall s, Forall (fun o => is_close o = false) ops -> db_kept s (run_ops ops s).
Proof.
  induction ops as [|o ops IH]; intros s Hall; simpl.
  - reflexivity.
  - inversion Hall as [|? ? Ho Hrest]; subst.
    etransitivity; [apply run_op_db_kept; exact Ho |].
    apply IH. exact Hrest.
Qed.

(** C8, as the code has it: once a database handle is cached, it stays
    cached through every run of getMongoClient, getDatabase and
    getDonationCollection calls and through whatever the environment does,
    as long as closeMongoConnection is not called; a getDatabase call made
    then returns that handle whatever DATABASE_NAME says when the client
    resolves, and rethrows the client's error, keeping the handle cached,
    when it does not. *)
Theorem getDatabase_first_caller_wins d s ops env :
  cachedDb s = Some d ->
  Forall (fun o => is_close o = false) ops ->
  cachedDb (run_ops ops s) = Some d /\
  (forall c, fst (getMongoClient env (run_ops ops s)) = Ok c ->
             fst (getDatabase env (run_ops ops s)) = Ok d) /\
  (forall e, fst (getMongoClient env (run_ops ops s)) = Throw e ->
             fst (getDatabase env (run_ops ops s)) = Throw e) /\
  cachedDb (snd (getDatabase env (run_ops ops s))) = Some d.
Proof.
  intros Hd Hops.
  pose proof (run_ops_db_kept ops s Hops d Hd) as Hd1.
  set (s1 := run_ops ops s) in *.
  split; [exact Hd1 |].
  pose proof (getMongoClient_cachedDb env s1) as Hframe.
  pose proof (getDatabase_db_kept env s1 d Hd1) as Hd2.
  repeat split; try exact Hd2.
  - intros c Hc. rewrite getDatabase_unfold.
    destruct (getMongoClient env s1) as [[c'|e] s2]; simpl in *; [| discriminate].
    rewrite Hframe, Hd1. reflexivity.
  - intros e He. rewrite getDatabase_unfold.
    destruct (getMongoClient env s1) as [[c'|e'] s2]; simpl in *; [discriminate |].
    injection He as ->. reflexivity.
Qed.

(** C8 does not hold as stated: after closeMongoConnection the next
    getDatabase derives a new handle from its own DATABASE_NAME, and a
    getDatabase call whose client resolution fails returns no handle. *)
Lemma getDatabase_rederives_after_close :
  cachedDb warm = Some {| db_client := 0; db_name := "testdb" |} /\
  fst (getDatabase env_other_db (snd (closeMongoConnection warm))) =
    Ok {| db_client := 1; db_name := "archive" |} /\
  cachedDb dropped = Some {| db_client := 0; db_name := "testdb" |} /\
  fst (getDatabase env_no_uri dropped) =
    Throw (new_Error "MONGODB_URI environment variable is required").
Proof. vm_compute. repeat split. Qed.

End Database.

(** ** Teardown *)

Section Teardown.

Implicit Types (s : State) (env : Env) (c : ClientId).

(** With a cached client, [close] is attempted once and both variables are
    cleared, whether [close] resolves or rejects. *)
Lemma closeMongoConnection_cached s c :
  cachedClient s = Some c ->
  exists wd,
    closeMongoConnection s =
      (Ok tt,
       {| cachedClient := None; cachedDb := None; world := wd;
          trace := trace s ++
            [EvClose c;
             match hd None (w_script (world s)) with
             | Some e =>
                 EvConsole LError ["Error closing MongoDB connection:";
                                   err_message e]
             | None => EvConsole LLog ["MongoDB connection closed"]
             end] |}).
Proof.
  intros Hc. unfold closeMongoConnection, bind at 1, get_state. rewrite Hc.
  destruct s as [? ? [? ? ? sc] ?]. destruct sc as [|[e|] sc]; run_m;
    rewrite <- app_assoc; simpl; eexists; reflexivity.
Qed.

(** C7: with a cached client, closeMongoConnection issues one close on it
    and, whether the close resolves or rejects (the rejection goes to the
    console), returns normally with both cachedClient and cachedDb
    cleared; the next getMongoClient with a URI
    then constructs and connects a fresh client, and the next getDatabase
    that succeeds derives its handle from that fresh client and from its
    own DATABASE_NAME.  Without a cached client the call returns normally
    and changes nothing. *)
Theorem closeMongoConnection_clears_cache :
  (forall s c,
      cachedClient s = Some c ->
      exists s' evs,
        closeMongoConnection s = (Ok tt, s') /\
        cachedClient s' = None /\
        cachedDb s' = None /\
        trace s' = trace s ++ evs /\
        evs = [EvClose c;
               match hd None (w_script (world s)) with
               | Some e =>
                   EvConsole LError ["Error closing MongoDB connection:";
                                     err_message e]
               | None => EvConsole LLog ["MongoDB connection closed"]
               end] /\
        forall (f : World -> World) env,
          truthy (MONGODB_URI env) = true ->
          let s1 := perturb f s' in
          let fresh := w_next (world s1) in
          (exists evs1,
              trace (snd (getMongoClient env s1)) = trace s' ++ evs1 /\
              EvNewClient fresh (or_default (MONGODB_URI env) "") client_options
                ∈ evs1 /\
              (hd None (w_script (world s1)) = None -> EvConnect fresh ∈ evs1)) /\
          (forall c1, fst (getMongoClient env s1) = Ok c1 -> c1 = fresh) /\
          (forall d, fst (getDatabase env s1) = Ok d ->
             d = client_db fresh
                   (or_default (DATABASE_NAME env) "donation_system"))) /\
  (forall s, cachedClient s = None -> closeMongoConnection s = (Ok tt, s)).
Proof.
  split.
  - intros s c Hc.
    destruct (closeMongoConnection_cached s c Hc) as (wd & Hrun).
    do 2 eexists. split; [exact Hrun |].
    do 4 (split; [reflexivity |]).
    intros f env Hu s1 fresh.
    assert (cachedClient s1 = None) as Hcc by reflexivity.
    assert (cachedDb s1 = None) as Hdb by reflexivity.
    destruct (getMongoClient_empty_cache_fresh env s1 Hcc Hu)
      as (evs1 & Htr & Hnew & Hconn & Hok).
    split; [| split].
    + exists evs1. split; [exact Htr |]. split; [exact Hnew | exact Hconn].
    + intros c1 Hc1. apply (Hok c1 Hc1).
    + intros d Hd. rewrite getDatabase_unfold in Hd.
      pose proof (getMongoClient_cachedDb env s1) as Hframe.
      destruct (getMongoClient env s1) as [[c1|e] s2] eqn:Hrun1; simpl in *;
        [| discriminate].
      destruct (Hok c1 eq_refl) as (-> & _).
      try rewrite Hdb in Hframe. rewrite Hframe in Hd. simpl in Hd.
      injection Hd as <-. reflexivity.
  - intros s Hc. unfold closeMongoConnection, bind, get_state. rewrite Hc.
    reflexivity.
Qed.

End Teardown.

(** ** Index provisioning *)

Lemma emit_trace ev s : trace (emit ev s) = trace s ++ [ev].
Proof. reflexivity. Qed.

Lemma emit_world ev s : world (emit ev s) = world s.
Proof. reflexivity. Qed.

Section Indexes.

Implicit Types (s : State) (ix : IndexSpec) (ixs : list IndexSpec).

Variable collection : Collection.

Lemma drv_createIndex_result ix s :
  drv_createIndex collection ix s =
    (match hd None (w_script (world s)) with
     | Some e => Throw e
     | None => Ok tt
     end, index_step collection s ix).
Proof.
  unfold index_step, drv_createIndex, driver_call, next_outcome. simpl.
  destruct (hd None (w_script (world s))); reflexivity.
Qed.

Lemma index_step_trace ix s :
  trace (index_step collection s ix) = trace s ++ [EvCreateIndex collection ix].
Proof.
  unfold index_step, drv_createIndex, driver_call, next_outcome. simpl.
  destruct (hd None (w_script (world s))); reflexivity.
Qed.

Lemma index_step_script ix s :
  w_script (world (index_step collection s ix)) = tl (w_script (world s)).
Proof.
  unfold index_step, drv_createIndex, driver_call, next_outcome. simpl.
  destruct (hd None (w_script (world s))); reflexivity.
Qed.

Lemma index_step_server ix s :
  w_server (world (index_step collection s ix)) =
    match hd None (w_script (world s)) with
    | Some _ => w_server (world s)
    | None =>
        <[coll_key collection := add_index ix (default [] (w_server (world s) !! coll_key collection))]>
          (w_server (world s))
    end.
Proof.
  unfold index_step, drv_createIndex, driver_call, next_outcome. simpl.
  destruct (hd None (w_script (world s))); reflexivity.
Qed.

Lemma quiet_prefix_hd (n : nat) (sc : list (option Error)) :
  Forall (fun o => o = None) (take (S n) sc) ->
  hd None sc = None /\ Forall (fun o => o = None) (take n (tl sc)).
Proof.
  destruct sc as [|o sc]; simpl.
  - intros _. split; [reflexivity |]. rewrite take_nil. constructor.
  - intros H. inversion H; subst. split; [reflexivity | assumption].
Qed.

(** While no [createIndex] rejects, the calls run to the continuation. *)
Lemma create_then_run (k : M unit) ixs :
  forall s,
    Forall (fun o => o = None) (take (length ixs) (w_script (world s))) ->
    create_then collection ixs k s = k (foldl (index_step collection) s ixs).
Proof.
  induction ixs as [|ix ixs IH]; intros s Hq; simpl; [reflexivity |].
  apply quiet_prefix_hd in Hq as [Hhd Htl].
  unfold bind at 1. rewrite drv_createIndex_result, Hhd.
  apply IH. rewrite index_step_script. exact Htl.
Qed.

(** The first [createIndex] that rejects ends the sequence: the calls after
    it are not made and the continuation is not run. *)
Lemma create_then_stop (k : M unit) (n : nat) :
  forall ixs s e rest,
    w_script (world s) = repeat None n ++ Some e :: rest ->
    n < length ixs ->
    create_then collection ixs k s =
      (Throw e, foldl (index_step collection) s (take (S n) ixs)).
Proof.
  induction n as [|n IH]; intros ixs s e rest Hsc Hlen;
    (destruct ixs as [|ix ixs]; [simpl in Hlen; lia |]); simpl.
  - unfold bind at 1. rewrite drv_createIndex_result, Hsc. simpl.
    rewrite ?take_0. reflexivity.
  - unfold bind at 1. rewrite drv_createIndex_result, Hsc. simpl.
    apply (IH ixs _ e rest); [| simpl in Hlen; lia].
    rewrite index_step_script, Hsc. reflexivity.
Qed.

Lemma index_steps_trace ixs :
  forall s,
    trace (foldl (index_step collection) s ixs) =
      trace s ++ (EvCreateIndex collection <$> ixs).
Proof.
  induction ixs as [|ix ixs IH]; intros s; simpl.
  - by rewrite app_nil_r.
  - rewrite IH, index_step_trace, <- app_assoc. reflexivity.
Qed.

Lemma index_steps_script ixs :
  forall s,
    w_script (world (foldl (index_step collection) s ixs)) =
      drop (length ixs) (w_script (world s)).
Proof.
  induction ixs as [|ix ixs IH]; intros s; simpl.
  - reflexivity.
  - rewrite IH, index_step_script. destruct (w_script (world s)); simpl;
      [by rewrite drop_nil | reflexivity].
Qed.

(** The indexes of the collection after calls that all went through. *)
Lemma index_steps_server ixs :
  forall s old,
    Forall (fun o => o = None) (take (length ixs) (w_script (world s))) ->
    w_server (world s) !! coll_key collection = Some old ->
    w_server (world (foldl (index_step collection) s ixs)) =
      <[coll_key collection := foldl (fun l ix => add_index ix l) old ixs]> (w_server (world s)).
Proof.
  induction ixs as [|ix ixs IH]; intros s old Hq Hold; simpl.
  - symmetry. by apply insert_id.
  - apply quiet_prefix_hd in Hq as [Hhd Htl].
    rewrite (IH _ (add_index ix old)).
    + rewrite index_step_server, Hhd, Hold. simpl.
      by rewrite insert_insert_eq.
    + rewrite index_step_script. exact Htl.
    + rewrite index_step_server, Hhd, Hold. simpl. by rewrite lookup_insert_eq.
Qed.

(** [createIndexes] always completes normally. *)
Lemma createIndexes_total s : fst (createIndexes collection s) = Ok tt.
Proof.
  unfold createIndexes, try_catch.
  destruct (createIndexes_body collection s) as [[[]|e] s1]; reflexivity.
Qed.

(** All eight calls go through. *)
Lemma createIndexes_all_created s old :
  Forall (fun o => o = None)
    (take (length donation_indexes) (w_script (world s))) ->
  w_server (world s) !! coll_key collection = Some old ->
  exists s',
    createIndexes collection s = (Ok tt, s') /\
    trace s' = trace s ++ (EvCreateIndex collection <$> donation_indexes) ++
                 [EvConsole LLog ["Collection indexes created successfully"]] /\
    w_server (world s') =
      <[coll_key collection := foldl (fun l ix => add_index ix l) old donation_indexes]>
        (w_server (world s)) /\
    w_script (world s') = drop (length donation_indexes) (w_script (world s)).
Proof.
  intros Hq Hold. unfold createIndexes, try_catch.
  rewrite createIndexes_body_unfold, create_then_run by exact Hq.
  exists (emit (EvConsole LLog ["Collection indexes created successfully"])
            (foldl (index_step collection) s donation_indexes)).
  split; [reflexivity |].
  rewrite emit_trace, emit_world, index_steps_trace,
    (index_steps_server donation_indexes s old Hq Hold),
    index_steps_script, <- app_assoc.
  split; [reflexivity |]. split; reflexivity.
Qed.

(** A rejected [createIndex] takes [createIndexes] to its [catch] block. *)
Lemma createIndexes_rejected s (n : nat) e rest :
  w_script (world s) = repeat None n ++ Some e :: rest ->
  n < length donation_indexes ->
  createIndexes collection s =
    (Ok tt,
     emit (EvConsole LWarn ["Failed to create indexes:"; err_message e])
       (foldl (index_step collection) s (take (S n) donation_indexes))).
Proof.
  intros Hsc Hlen. unfold createIndexes, try_catch.
  rewrite createIndexes_body_unfold, (create_then_stop _ n _ s e rest Hsc Hlen).
  reflexivity.
Qed.

(** C4, as the code has it: the eight createIndex calls are made one after
    the other inside one guarded block.  When the call number [n] (counted
    from 0) is the first to reject, createIndexes has made exactly the calls
    up to and including that one, the collection has gained the indexes
    before it and none after it, the rejection is written to the console
    as a warning, and the function returns normally. *)
Theorem createIndexes_stops_at_first_failure s (n : nat) e rest old :
  w_script (world s) = repeat None n ++ Some e :: rest ->
  n < length donation_indexes ->
  w_server (world s) !! coll_key collection = Some old ->
  exists s',
    createIndexes collection s = (Ok tt, s') /\
    trace s' =
      trace s ++ (EvCreateIndex collection <$> take (S n) donation_indexes) ++
        [EvConsole LWarn ["Failed to create indexes:"; err_message e]] /\
    w_server (world s') =
      <[coll_key collection := foldl (fun l ix => add_index ix l) old (take n donation_indexes)]>
        (w_server (world s)) /\
    w_script (world s') = rest.
Proof.
  intros Hsc Hlen Hold.
  rewrite (createIndexes_rejected s n e rest Hsc Hlen).
  eexists. split; [reflexivity |]. rewrite emit_trace, emit_world.
  destruct (lookup_lt_is_Some_2 donation_indexes n Hlen) as [ix Hix].
  rewrite (take_S_r _ _ _ Hix), foldl_app. simpl foldl.
  set (sn := foldl (index_step collection) s (take n donation_indexes)).
  assert (length (take n donation_indexes) = n) as Hn
      by (rewrite length_take; lia).
  assert (w_script (world sn) = Some e :: rest) as Hscn.
  { unfold sn. rewrite index_steps_script, Hn, Hsc.
    rewrite drop_app_length'; [reflexivity | by rewrite repeat_length]. }
  assert (w_server (world sn) =
          <[coll_key collection := foldl (fun l ix => add_index ix l) old (take n donation_indexes)]>
            (w_server (world s))) as Hsvn.
  { unfold sn. apply index_steps_server; [| exact Hold].
    rewrite Hn, Hsc, take_app_length'; [| by rewrite repeat_length].
    clear. induction n; simpl; constructor; auto. }
  rewrite index_step_trace, index_step_server, index_step_script, Hscn.
  cbn [hd tl]. unfold sn at 1. rewrite index_steps_trace, Hsvn, fmap_app, <- !app_assoc.
  split; [reflexivity |]. split; reflexivity.
Qed.

End Indexes.

(** ** The donation collection *)

Section DonationCollection.

Implicit Types (s : State) (env : Env) (d : Db) (name : string).

Lemma getDonationCollection_unfold env s :
  getDonationCollection env s =
    match getDatabase env s with
    | (Ok d, s1) =>
        match provision d (or_default (COLLECTION_NAME env) "donations") s1 with
        | (Ok cl, s2) => (Ok cl, s2)
        | (Throw e, s2) =>
            (Throw e,
             emit (EvConsole LError ["Failed to get collection:"; err_message e]) s2)
        end
    | (Throw e, s1) =>
        (Throw e,
         emit (EvConsole LError ["Failed to get collection:"; err_message e]) s1)
    end.
Proof.
  unfold getDonationCollection, provision, try_catch, bind at 1.
  destruct (getDatabase env s) as [[d|e] s1]; reflexivity.
Qed.

Lemma drv_listCollections_ok d name s :
  hd None (w_script (world s)) = None ->
  drv_listCollections d name s =
    (Ok (match w_server (world s) !! (db_name d, name) with
         | Some _ => [name]
         | None => []
         end), listed d name s).
Proof.
  intros Hhd. unfold drv_listCollections, driver_call, next_outcome, listed.
  simpl. rewrite Hhd. simpl.
  destruct (w_server (world s) !! (db_name d, name)); reflexivity.
Qed.

(** A collection that is there is returned after the one listing call. *)
Lemma provision_present d name s :
  hd None (w_script (world s)) = None ->
  is_Some (w_server (world s) !! (db_name d, name)) ->
  provision d name s = (Ok (db_collection d name), listed d name s).
Proof.
  intros Hhd [ixs Hix]. unfold provision, bind at 1.
  rewrite drv_listCollections_ok by exact Hhd. rewrite Hix. reflexivity.
Qed.

(** A collection that is missing is created, then indexed. *)
Lemma provision_absent d name s :
  hd None (w_script (world s)) = None ->
  w_server (world s) !! (db_name d, name) = None ->
  hd None (tl (w_script (world s))) = None ->
  provision d name s =
    (Ok (db_collection d name),
     snd (createIndexes (db_collection d name) (collection_created d name s))).
Proof.
  intros Hhd Habs Hhd2. unfold provision, bind at 1.
  rewrite drv_listCollections_ok by exact Hhd. rewrite Habs.
  assert (drv_createCollection d name
            (emit (EvConsole LLog ["Creating collection: " +:+ name])
               (listed d name s)) = (Ok tt, collection_created d name s)) as Hcc.
  { unfold drv_createCollection, driver_call, next_outcome, collection_created,
      listed. simpl. rewrite Hhd2, Habs. reflexivity. }
  pose proof (createIndexes_total (db_collection d name)
                (collection_created d name s)) as Htot.
  unfold bind, console, modify. cbn [length Nat.eqb]. cbv beta.
  rewrite Hcc.
  destruct (createIndexes _ (collection_created d name s)) as [r s'].
  simpl in Htot. subst r. reflexivity.
Qed.

(** C5: createIndexes catches what createIndex throws, so that whenever
    getDatabase, listCollections and (for a collection that is missing)
    createCollection go through, getDonationCollection returns the
    collection handle, whatever the createIndex calls do; when one of them
    rejects with [e], the warning "Failed to create indexes:" with the
    message of [e] is on the console. *)
Theorem getDonationCollection_survives_index_failures env s d s1 :
  getDatabase env s = (Ok d, s1) ->
  hd None (w_script (world s1)) = None ->
  (w_server (world s1) !! (db_name d, or_default (COLLECTION_NAME env) "donations")
     = None ->
   hd None (tl (w_script (world s1))) = None) ->
  (exists s',
      getDonationCollection env s =
        (Ok (db_collection d (or_default (COLLECTION_NAME env) "donations")), s')) /\
  (forall (n : nat) e rest,
      w_server (world s1) !! (db_name d, or_default (COLLECTION_NAME env) "donations")
        = None ->
      w_script (world s1) = None :: None :: repeat None n ++ Some e :: rest ->
      n < length donation_indexes ->
      EvConsole LWarn ["Failed to create indexes:"; err_message e]
        ∈ trace (snd (getDonationCollection env s))).
Proof.
  intros Hdb Hlist Hcreate. rewrite getDonationCollection_unfold, Hdb.
  set (name := or_default (COLLECTION_NAME env) "donations") in *.
  destruct (w_server (world s1) !! (db_name d, name)) as [ixs|] eqn:Hsv.
  - rewrite provision_present by (rewrite ?Hsv; eauto). split; [eauto |].
    intros n e rest Habs. discriminate.
  - rewrite provision_absent by auto. split; [eauto |].
    intros n e rest _ Hsc Hn. cbn [snd].
    rewrite (createIndexes_rejected (db_collection d name)
               (collection_created d name s1) n e rest); [| | exact Hn].
    + cbn [snd]. rewrite emit_trace, elem_of_app. right.
      apply list_elem_of_singleton. reflexivity.
    + unfold collection_created. simpl. rewrite Hsc. reflexivity.
Qed.

End DonationCollection.

(** ** Provisioning happens once *)

Section ProvisionOnce.

Implicit Types (s : State) (env : Env) (d : Db) (name : string).

Lemma quiet_tl (sc : list (option Error)) :
  Forall (fun o => o = None) sc ->
  hd None sc = None /\ Forall (fun o => o = None) (tl sc).
Proof.
  destruct sc as [|o sc]; simpl; intros H.
  - split; [reflexivity | constructor].
  - inversion H; subst. split; [reflexivity | assumption].
Qed.

(** With a URI and a script that rejects nothing, the client resolves and
    is live afterwards. *)
Lemma getMongoClient_quiet_ok env s :
  truthy (MONGODB_URI env) = true ->
  quiet s ->
  exists c s', getMongoClient env s = (Ok c, s') /\ cached_live s' = Some c.
Proof.
  intros Hu Hq. destruct (cached_live s) as [c|] eqn:Hl.
  - rewrite (getMongoClient_cached env s c Hl). exists c. eexists.
    split; [reflexivity | exact Hl].
  - rewrite getMongoClient_uncached by assumption. clear Hl.
    unfold fresh_connection. rewrite Hu. revert Hq. unfold quiet.
    fresh_cases s; intros Hq;
      repeat match goal with
        | H : Forall _ (_ :: _) |- _ => inversion H; clear H; subst
        end; try discriminate;
      (do 2 eexists; split; [reflexivity |];
       unfold cached_live, topology_isConnected; simpl;
       by rewrite lookup_insert_eq).
Qed.

Lemma getDatabase_server env s :
  w_server (world (snd (getDatabase env s))) = w_server (world s).
Proof.
  rewrite getDatabase_unfold.
  assert (w_server (world (snd (getMongoClient env s))) = w_server (world s)) as H.
  { destruct (cached_live s) as [c|] eqn:Hl.
    - rewrite (getMongoClient_cached env s c Hl). reflexivity.
    - rewrite getMongoClient_uncached by assumption.
      apply fresh_connection_frame. }
  destruct (getMongoClient env s) as [[c|e] s1]; simpl in *; [| exact H].
  destruct (cachedDb s1); exact H.
Qed.

Lemma getDatabase_quiet_ok env s :
  truthy (MONGODB_URI env) = true ->
  quiet s ->
  exists c d s',
    getDatabase env s = (Ok d, s') /\
    cached_live s' = Some c /\ cachedDb s' = Some d.
Proof.
  intros Hu Hq. rewrite getDatabase_unfold.
  destruct (getMongoClient_quiet_ok env s Hu Hq) as (c & s1 & -> & Hl).
  exists c. destruct (cachedDb s1) as [d|] eqn:Hd.
  - exists d, s1. repeat split; assumption.
  - do 2 eexists. split; [reflexivity |]. split; [exact Hl | reflexivity].
Qed.

(** A database handle that is cached and a client that is live are what a
    later [getDatabase] answers with, after one console line. *)
Lemma getDatabase_cached env s c d :
  cached_live s = Some c ->
  cachedDb s = Some d ->
  getDatabase env s =
    (Ok d, emit (EvConsole LLog ["Using cached MongoDB connection"]) s).
Proof.
  intros Hl Hd. rewrite getDatabase_unfold, (getMongoClient_cached env s c Hl).
  simpl. rewrite Hd. reflexivity.
Qed.

Lemma collection_created_trace d name s :
  trace (collection_created d name s) =
    trace s ++ [EvListCollections d name;
                EvConsole LLog ["Creating collection: " +:+ name];
                EvCreateCollection d name].
Proof. unfold collection_created. simpl. by rewrite <- !app_assoc. Qed.

Lemma collection_created_quiet d name s :
  quiet s -> quiet (collection_created d name s).
Proof.
  unfold quiet, collection_created. simpl. intros H.
  apply quiet_tl in H as [_ H]. apply quiet_tl in H as [_ H]. exact H.
Qed.

Lemma no_creation_filter (evs : list Event) :
  Forall (fun ev => not_creation ev = true) evs ->
  filter (fun ev => is_creation ev = true) evs = [].
Proof.
  induction 1 as [|ev evs Hev _ IH]; [reflexivity |].
  rewrite filter_cons_False; [exact IH |].
  unfold not_creation in Hev. destruct (is_creation ev); [discriminate | auto].
Qed.

Lemma quiet_take (n : nat) (sc : list (option Error)) :
  Forall (fun o => o = None) sc -> Forall (fun o => o = None) (take n sc).
Proof. intros H. by apply Forall_take. Qed.

(** C3: against a server without collections, with a URI and driver calls
    that go through, two successive calls of getDonationCollection both
    return the same collection handle; the first issues createCollection
    once and then createIndex once for each of the eight specifications,
    after which the server holds the collection with these eight indexes;
    the second issues no createCollection and no createIndex call and
    leaves the server as it is. *)
Theorem getDonationCollection_provisions_once env s :
  truthy (MONGODB_URI env) = true ->
  quiet s ->
  w_server (world s) = ∅ ->
  exists d s1 s2 evs1 evs2,
    let name := or_default (COLLECTION_NAME env) "donations" in
    getDonationCollection env s = (Ok (db_collection d name), s1) /\
    trace s1 = trace s ++ evs1 /\
    filter (fun ev => is_creation ev = true) evs1 =
      EvCreateCollection d name ::
      (EvCreateIndex (db_collection d name) <$> donation_indexes) /\
    w_server (world s1) = {[ (db_name d, name) := donation_indexes ]} /\
    getDonationCollection env s1 = (Ok (db_collection d name), s2) /\
    trace s2 = trace s1 ++ evs2 /\
    filter (fun ev => is_creation ev = true) evs2 = [] /\
    w_server (world s2) = w_server (world s1).
Proof.
  intros Hu Hq Hempty.
  set (name := or_default (COLLECTION_NAME env) "donations").
  destruct (getDatabase_quiet_ok env s Hu Hq) as (c & d & sa & Hdb & Hla & Hda).
  pose proof (getDatabase_quiet_kept env s Hq) as Hqa.
  pose proof (getDatabase_server env s) as Hsva.
  destruct (getDatabase_no_creation env s) as (evs_db & Htra & Hevs_db).
  rewrite Hdb in Hqa, Hsva, Htra. simpl in Hqa, Hsva, Htra.
  rewrite Hempty in Hsva.
  destruct (quiet_tl _ Hqa) as [Hhd1 Hqa1].
  destruct (quiet_tl _ Hqa1) as [Hhd2 _].
  assert (w_server (world sa) !! (db_name d, name) = None) as Habs
      by (rewrite Hsva; apply lookup_empty).
  set (cl := db_collection d name).
  set (sc := collection_created d name sa).
  assert (w_server (world sc) !! coll_key cl = Some []) as Hold.
  { unfold sc, collection_created, coll_key. simpl. apply lookup_insert_eq. }
  destruct (createIndexes_all_created cl sc [])
    as (s1 & Hix & Htr1 & Hsv1 & Hsc1); [| exact Hold |].
  { apply quiet_take. apply collection_created_quiet. exact Hqa. }
  assert (getDonationCollection env s = (Ok cl, s1)) as Hcall1.
  { rewrite getDonationCollection_unfold, Hdb. fold name.
    rewrite (provision_absent d name sa Hhd1 Habs Hhd2). fold cl sc.
    rewrite Hix. reflexivity. }
  (* the state between the two calls *)
  pose proof (createIndexes_same_module cl sc) as (Hcc1 & Hcd1 & Htp1).
  pose proof (createIndexes_quiet_kept cl sc
                (collection_created_quiet d name sa Hqa)) as Hq1.
  rewrite Hix in Hcc1, Hcd1, Htp1, Hq1. simpl in Hcc1, Hcd1, Htp1, Hq1.
  assert (cached_live s1 = Some c) as Hl1.
  { unfold cached_live, topology_isConnected in *. rewrite Hcc1, Htp1.
    exact Hla. }
  assert (cachedDb s1 = Some d) as Hd1 by (rewrite Hcd1; exact Hda).
  assert (w_server (world s1) = {[ (db_name d, name) := donation_indexes ]})
    as Hserver.
  { rewrite Hsv1. unfold sc, collection_created, cl, coll_key. simpl.
    rewrite Hsva, insert_insert_eq, insert_empty. reflexivity. }
  set (sb := emit (EvConsole LLog ["Using cached MongoDB connection"]) s1).
  assert (getDonationCollection env s1 = (Ok cl, listed d name sb)) as Hcall2.
  { rewrite getDonationCollection_unfold, (getDatabase_cached env s1 c d Hl1 Hd1).
    fold name sb. rewrite provision_present; [reflexivity | |].
    - unfold sb. rewrite emit_world. apply (quiet_tl _ Hq1).
    - unfold sb. rewrite emit_world, Hserver, lookup_singleton_eq. eauto. }
  exists d, s1, (listed d name sb).
  exists (evs_db ++ [EvListCollections d name;
                     EvConsole LLog ["Creating collection: " +:+ name];
                     EvCreateCollection d name] ++
            (EvCreateIndex cl <$> donation_indexes) ++
            [EvConsole LLog ["Collection indexes created successfully"]]).
  exists [EvConsole LLog ["Using cached MongoDB connection"];
          EvListCollections d name].
  cbv zeta. fold name cl.
  split; [exact Hcall1 |]. split.
  { rewrite Htr1. unfold sc. rewrite collection_created_trace, Htra.
    rewrite <- !app_assoc. reflexivity. }
  split.
  { rewrite filter_app, (no_creation_filter _ Hevs_db). reflexivity. }
  split; [exact Hserver |]. split; [exact Hcall2 |]. split.
  { unfold listed, sb. simpl. rewrite <- app_assoc. reflexivity. }
  split; reflexivity.
Qed.

End ProvisionOnce.

(** ** The theorems on sample runs *)

(** C4 does not hold as stated: when the first createIndex rejects and
    nothing else would, createIndexes makes no further createIndex call and
    the collection is left without any index. *)
Lemma createIndexes_first_failure_blocks_rest :
  filter (fun ev => is_create_index ev = true)
    (events_of (createIndexes (donations_of testdb))
       (with_script [Some boom] provisioned)) =
    [EvCreateIndex (donations_of testdb) (plain_index "submittedAt" Desc)] /\
  w_server (world (snd (createIndexes (donations_of testdb)
                          (with_script [Some boom] provisioned)))) !!
    coll_key (donations_of testdb) = Some [] /\
  w_script (world (snd (createIndexes (donations_of testdb)
                          (with_script [Some boom] provisioned)))) = [].
Proof. vm_compute. repeat split. Qed.

Lemma getMongoClient_reuses_live_client_witness :
  (cached_live cold = None /\
   getMongoClient env_full cold = (Ok 0, connected) /\
   stays_live two_calls connected) /\
  exists evs0 s2 evs,
    trace connected = trace cold ++ evs0 /\
    filter (fun ev => is_connect ev = true) evs0 = [EvConnect 0] /\
    run_getMongoClient two_calls connected =
      (repeat (Ok 0) (length two_calls), s2) /\
    cachedClient s2 = Some 0 /\
    world s2 =
      foldl (fun wd cl => call_before cl wd) (world connected) two_calls /\
    trace s2 = trace connected ++ evs /\
    Forall (fun ev => is_client_activity ev = false) evs.
Proof.
  assert (H1 : cached_live cold = None) by reflexivity.
  assert (H2 : getMongoClient env_full cold = (Ok 0, connected))
    by (vm_compute; reflexivity).
  assert (H3 : stays_live two_calls connected).
  { split; [exists 0; vm_compute; reflexivity |].
    split; [exists 0; vm_compute; reflexivity | exact I]. }
  exact (conj (conj H1 (conj H2 H3))
           (proj2 getMongoClient_reuses_live_client env_full cold 0 connected
              two_calls H1 H2 H3)).
Defined.

Lemma getMongoClient_failure_clears_cache_witness :
  (cached_live (with_script [None; Some boom] cold) = None /\
   truthy (MONGODB_URI env_full) = true /\
   (w_script (world (with_script [None; Some boom] cold)) =
      None :: Some boom :: [] \/
    w_script (world (with_script [None; Some boom] cold)) =
      None :: None :: Some boom :: [])) /\
  exists s',
    getMongoClient env_full (with_script [None; Some boom] cold) =
      (Throw boom, s') /\
    cachedClient s' = None.
Proof.
  assert (H1 : cached_live (with_script [None; Some boom] cold) = None)
    by reflexivity.
  assert (H2 : truthy (MONGODB_URI env_full) = true) by reflexivity.
  assert (H3 : w_script (world (with_script [None; Some boom] cold)) =
                 None :: Some boom :: [] \/
               w_script (world (with_script [None; Some boom] cold)) =
                 None :: None :: Some boom :: [])
    by (left; reflexivity).
  split; [exact (conj H1 (conj H2 H3)) |].
  destruct (getMongoClient_failure_clears_cache env_full
              (with_script [None; Some boom] cold) boom [] H1 H2 H3)
    as (s' & Hrun & Hcc & _).
  exists s'. exact (conj Hrun Hcc).
Defined.

Lemma getDonationCollection_provisions_once_witness :
  (truthy (MONGODB_URI env_full) = true /\ quiet cold /\
   w_server (world cold) = ∅) /\
  exists d s1 s2 evs1 evs2,
    let name := or_default (COLLECTION_NAME env_full) "donations" in
    getDonationCollection env_full cold = (Ok (db_collection d name), s1) /\
    trace s1 = trace cold ++ evs1 /\
    filter (fun ev => is_creation ev = true) evs1 =
      EvCreateCollection d name ::
      (EvCreateIndex (db_collection d name) <$> donation_indexes) /\
    w_server (world s1) = {[ (db_name d, name) := donation_indexes ]} /\
    getDonationCollection env_full s1 = (Ok (db_collection d name), s2) /\
    trace s2 = trace s1 ++ evs2 /\
    filter (fun ev => is_creation ev = true) evs2 = [] /\
    w_server (world s2) = w_server (world s1).
Proof.
  assert (H1 : truthy (MONGODB_URI env_full) = true) by reflexivity.
  assert (H2 : quiet cold) by constructor.
  assert (H3 : w_server (world cold) = ∅) by reflexivity.
  exact (conj (conj H1 (conj H2 H3))
           (getDonationCollection_provisions_once env_full cold H1 H2 H3)).
Defined.

Lemma createIndexes_stops_at_first_failure_witness :
  (w_script (world (with_script [None; None; Some boom] provisioned)) =
     repeat None 2 ++ Some boom :: [] /\
   2 < length donation_indexes /\
   w_server (world (with_script [None; None; Some boom] provisioned)) !!
     coll_key (donations_of testdb) = Some []) /\
  exists s',
    createIndexes (donations_of testdb)
      (with_script [None; None; Some boom] provisioned) = (Ok tt, s') /\
    trace s' =
      trace (with_script [None; None; Some boom] provisioned) ++
        (EvCreateIndex (donations_of testdb) <$> take 3 donation_indexes) ++
        [EvConsole LWarn ["Failed to create indexes:"; err_message boom]] /\
    w_server (world s') =
      <[coll_key (donations_of testdb) :=
          foldl (fun l ix => add_index ix l) [] (take 2 donation_indexes)]>
        (w_server (world (with_script [None; None; Some boom] provisioned))) /\
    w_script (world s') = [].
Proof.
  assert (H1 : w_script (world (with_script [None; None; Some boom] provisioned)) =
                 repeat None 2 ++ Some boom :: []) by reflexivity.
  assert (H2 : 2 < length donation_indexes) by (simpl; lia).
  assert (H3 : w_server (world (with_script [None; None; Some boom] provisioned)) !!
                 coll_key (donations_of testdb) = Some [])
    by (vm_compute; reflexivity).
  exact (conj (conj H1 (conj H2 H3))
           (createIndexes_stops_at_first_failure (donations_of testdb)
              (with_script [None; None; Some boom] provisioned) 2 boom [] []
              H1 H2 H3)).
Defined.

Lemma getDonationCollection_survives_index_failures_witness :
  (getDatabase env_full cold_flaky = (Ok testdb, snd (getDatabase env_full cold_flaky)) /\
   hd None (w_script (world (snd (getDatabase env_full cold_flaky)))) = None /\
   (w_server (world (snd (getDatabase env_full cold_flaky))) !!
      (db_name testdb, or_default (COLLECTION_NAME env_full) "donations") = None ->
    hd None (tl (w_script (world (snd (getDatabase env_full cold_flaky))))) = None)) /\
  (exists s',
      getDonationCollection env_full cold_flaky =
        (Ok (db_collection testdb
               (or_default (COLLECTION_NAME env_full) "donations")), s')) /\
  EvConsole LWarn ["Failed to create indexes:"; err_message boom]
    ∈ trace (snd (getDonationCollection env_full cold_flaky)).
Proof.
  assert (H1 : getDatabase env_full cold_flaky =
                 (Ok testdb, snd (getDatabase env_full cold_flaky)))
    by (vm_compute; reflexivity).
  assert (H2 : hd None (w_script (world (snd (getDatabase env_full cold_flaky))))
                 = None) by (vm_compute; reflexivity).
  assert (H3 : w_server (world (snd (getDatabase env_full cold_flaky))) !!
                 (db_name testdb,
                  or_default (COLLECTION_NAME env_full) "donations") = None ->
               hd None (tl (w_script (world (snd (getDatabase env_full cold_flaky)))))
                 = None) by (intros _; vm_compute; reflexivity).
  destruct (getDonationCollection_survives_index_failures env_full cold_flaky
              testdb _ H1 H2 H3) as [Hok Hwarn].
  split; [exact (conj H1 (conj H2 H3)) |]. split; [exact Hok |].
  apply (Hwarn 1 boom []); [vm_compute; reflexivity | vm_compute; reflexivity |].
  simpl. lia.
Defined.

Lemma getMongoClient_missing_uri_fails_early_witness :
  (MONGODB_URI env_no_uri = None /\ cached_live cold = None) /\
  exists s' evs,
    getMongoClient env_no_uri cold =
      (Throw (new_Error "MONGODB_URI environment variable is required"), s') /\
    world s' = world cold /\
    trace s' = trace cold ++ evs /\
    Forall (fun ev => is_client_activity ev = false) evs.
Proof.
  assert (H1 : MONGODB_URI env_no_uri = None) by reflexivity.
  assert (H2 : cached_live cold = None) by reflexivity.
  exact (conj (conj H1 H2)
           (getMongoClient_missing_uri_fails_early env_no_uri cold H1 H2)).
Defined.

Lemma closeMongoConnection_clears_cache_witness :
  cachedClient warm = Some 0 /\
  cachedDb warm = Some testdb /\
  exists s' evs,
    closeMongoConnection warm = (Ok tt, s') /\
    cachedClient s' = None /\
    cachedDb s' = None /\
    trace s' = trace warm ++ evs /\
    evs = [EvClose 0; EvConsole LLog ["MongoDB connection closed"]].
Proof.
  assert (H1 : cachedClient warm = Some 0) by (vm_compute; reflexivity).
  assert (H2 : cachedDb warm = Some testdb) by (vm_compute; reflexivity).
  destruct (proj1 closeMongoConnection_clears_cache warm 0 H1)
    as (s' & evs & Hrun & Hcc & Hdb & Htr & Hev & _).
  split; [exact H1 |]. split; [exact H2 |].
  exists s', evs. exact (conj Hrun (conj Hcc (conj Hdb (conj Htr Hev)))).
Defined.

Lemma getDatabase_first_caller_wins_witness :
  (cachedDb warm = Some testdb /\
   Forall (fun o => is_close o = false) busy_ops) /\
  cachedDb (run_ops busy_ops warm) = Some testdb /\
  (forall c, fst (getMongoClient env_other_db (run_ops busy_ops warm)) = Ok c ->
             fst (getDatabase env_other_db (run_ops busy_ops warm)) = Ok testdb) /\
  (forall e, fst (getMongoClient env_other_db (run_ops busy_ops warm)) = Throw e ->
             fst (getDatabase env_other_db (run_ops busy_ops warm)) = Throw e) /\
  cachedDb (snd (getDatabase env_other_db (run_ops busy_ops warm))) = Some testdb.
Proof.
  assert (H1 : cachedDb warm = Some testdb) by (vm_compute; reflexivity).
  assert (H2 : Forall (fun o => is_close o = false) busy_ops)
    by (repeat constructor).
  exact (conj (conj H1 H2)
           (getDatabase_first_caller_wins testdb warm busy_ops env_other_db H1 H2)).
Defined.

Lemma getMongoClient_failure_keeps_cachedDb_witness :
  (getMongoClient env_no_uri dropped =
     (Throw (new_Error "MONGODB_URI environment variable is required"),
      snd (getMongoClient env_no_uri dropped)) /\
   cachedClient dropped = Some 0 /\
   cachedDb dropped = Some testdb) /\
  cachedClient (snd (getMongoClient env_no_uri dropped)) = None /\
  cachedDb (snd (getMongoClient env_no_uri dropped)) = cachedDb dropped.
Proof.
  assert (H1 : getMongoClient env_no_uri dropped =
                 (Throw (new_Error "MONGODB_URI environment variable is required"),
                  snd (getMongoClient env_no_uri dropped)))
    by (vm_compute; reflexivity).
  assert (H2 : cachedClient dropped = Some 0) by (vm_compute; reflexivity).
  assert (H3 : cachedDb dropped = Some testdb) by (vm_compute; reflexivity).
  exact (conj (conj H1 (conj H2 H3))
           (getMongoClient_failure_keeps_cachedDb env_no_uri dropped _ _ H1)).
Defined.

(** * Further properties of the module *)

(** ** The client cache *)

Section ClientCache.

Implicit Types (s : State) (env : Env) (c : ClientId) (e : Error).

Lemma cached_live_cachedClient s c :
  cached_live s = Some c -> cachedClient s = Some c.
Proof.
  unfold cached_live. destruct (cachedClient s) as [c'|]; [| discriminate].
  destruct (topology_isConnected (world s) c'); congruence.
Qed.

Lemma getMongoClient_ok_live env s c s' :
  getMongoClient env s = (Ok c, s') -> cached_live s' = Some c.
Proof.
  intros Hrun. destruct (cached_live s) as [c0|] eqn:Hl0.
  - rewrite (getMongoClient_cached env s c0 Hl0) in Hrun.
    injection Hrun as <- <-. exact Hl0.
  - rewrite getMongoClient_uncached in Hrun by assumption.
    apply fresh_connection_ok in Hrun as (_ & _ & Hcc & Hw & _).
    unfold cached_live, topology_isConnected. rewrite Hcc, Hw. simpl.
    by rewrite lookup_insert_eq.
Qed.

(** X1: whichever path a successful getMongoClient took, the client it
    returns is the cached one and its probe answers "connected"; a call
    that follows at once, with any [env], returns it after one console
    line. *)
Theorem getMongoClient_success_is_live env s c s' :
  getMongoClient env s = (Ok c, s') ->
  cachedClient s' = Some c /\
  cached_live s' = Some c /\
  forall env',
    getMongoClient env' s' =
      (Ok c, emit (EvConsole LLog ["Using cached MongoDB connection"]) s').
Proof.
  intros Hrun. pose proof (getMongoClient_ok_live _ _ _ _ Hrun) as Hl.
  split; [by apply cached_live_cachedClient |]. split; [exact Hl |].
  intros env'. by apply getMongoClient_cached.
Qed.

(** X2: a MONGODB_URI that is missing or the empty string makes a call
    without a live cached client throw the "required" error; the driver's
    world is untouched, and a cached client whose connection has dropped is
    forgotten (and never closed), while cachedDb stays. *)
Theorem getMongoClient_falsy_uri_drops_stale env s :
  truthy (MONGODB_URI env) = false ->
  cached_live s = None ->
  exists s' evs,
    getMongoClient env s =
      (Throw (new_Error "MONGODB_URI environment variable is required"), s') /\
    cachedClient s' = None /\
    cachedDb s' = cachedDb s /\
    world s' = world s /\
    trace s' = trace s ++ evs /\
    Forall (fun ev => is_client_activity ev = false) evs.
Proof.
  intros Hu Hl. rewrite getMongoClient_uncached by assumption.
  rewrite fresh_connection_no_uri by assumption.
  do 2 eexists. split; [reflexivity |]. simpl.
  do 4 (split; [reflexivity |]). repeat constructor.
Qed.

(** X3: when connect goes through and the ping rejects, getMongoClient
    throws the ping's error with an empty client cache, but the client it
    has just connected stays connected: the call made no close, so that
    connection is left behind. *)
Theorem getMongoClient_ping_failure_leaves_connection env s e rest :
  cached_live s = None ->
  truthy (MONGODB_URI env) = true ->
  w_script (world s) = None :: None :: Some e :: rest ->
  exists s' evs,
    getMongoClient env s = (Throw e, s') /\
    cachedClient s' = None /\
    topology_isConnected (world s') (w_next (world s)) = true /\
    trace s' = trace s ++ evs /\
    filter (fun ev => is_client_activity ev = true) evs =
      [EvNewClient (w_next (world s)) (or_default (MONGODB_URI env) "")
         client_options;
       EvConnect (w_next (world s)); EvPing (w_next (world s))].
Proof.
  intros Hl Hu Hsc. rewrite getMongoClient_uncached by assumption.
  unfold fresh_connection. rewrite Hu.
  destruct s as [cc cd [n tp sv sc] tr]. simpl in Hsc. subst sc. run_m.
  do 2 eexists. split; [reflexivity |]. simpl.
  split; [reflexivity |]. split.
  - unfold topology_isConnected. simpl. by rewrite lookup_insert_eq.
  - split; [rewrite <- !app_assoc; simpl; reflexivity | reflexivity].
Qed.

(** X5: when the cached client has dropped and getMongoClient reconnects,
    getDatabase still returns the database handle cached earlier: a handle
    bound to a client other than the one just connected and cached. *)
Theorem getDatabase_returns_handle_of_old_client env s d c s1 :
  cachedDb s = Some d ->
  db_client d < w_next (world s) ->
  cached_live s = None ->
  getMongoClient env s = (Ok c, s1) ->
  getDatabase env s = (Ok d, s1) /\
  cachedClient s1 = Some c /\
  db_client d <> c.
Proof.
  intros Hd Hlt Hl Hrun.
  pose proof (getMongoClient_cachedDb env s) as Hdb. rewrite Hrun in Hdb.
  simpl in Hdb. rewrite Hd in Hdb.
  rewrite getDatabase_unfold, Hrun, Hdb.
  rewrite getMongoClient_uncached in Hrun by assumption.
  apply fresh_connection_ok in Hrun as (_ & -> & Hcc & _).
  split; [reflexivity |]. split; [exact Hcc | lia].
Qed.

End ClientCache.

(** ** Calls the getters never make *)

Section NoClose.

Lemma drv_calls_not_close :
  (forall uri opts, keeps (grows_by not_close) (new_MongoClient uri opts)) /\
  (forall c, keeps (grows_by not_close) (drv_connect c)) /\
  (forall c, keeps (grows_by not_close) (drv_ping c)) /\
  (forall d name, keeps (grows_by not_close) (drv_listCollections d name)) /\
  (forall d name, keeps (grows_by not_close) (drv_createCollection d name)) /\
  (forall cl ix, keeps (grows_by not_close) (drv_createIndex cl ix)).
Proof.
  split.
  - intros uri opts s. unfold new_MongoClient.
    match goal with
    | |- grows_by _ _ (snd (driver_call ?ev ?eff ?s1)) =>
        destruct (driver_call_state ev eff s1) as (wd & -> & _); exists [ev]
    end.
    split; [reflexivity | by constructor].
  - repeat split; intros; by apply driver_call_grows_by.
Qed.

#[local] Hint Extern 2 (keeps (grows_by not_close) _) =>
  apply drv_calls_not_close : frame.

(** X4: getMongoClient, getDatabase and getDonationCollection never call
    close on any client, whatever fails: a client that is replaced or
    dropped by them stays open until closeMongoConnection is called while
    it is the cached one. *)
Theorem getters_never_close env s :
  grows_by not_close s (snd (getMongoClient env s)) /\
  grows_by not_close s (snd (getDatabase env s)) /\
  grows_by not_close s (snd (getDonationCollection env s)).
Proof.
  assert (Hc : keeps (grows_by not_close) (getMongoClient env))
    by (unfold getMongoClient, fresh_connection; frame).
  assert (Hd : keeps (grows_by not_close) (getDatabase env))
    by (unfold getDatabase; frame).
  assert (Hi : forall cl, keeps (grows_by not_close) (createIndexes cl)).
  { intros cl. apply createIndexes_keeps; [typeclasses eauto | |]; intros; frame. }
  split; [apply Hc |]. split; [apply Hd |].
  revert s. change (keeps (grows_by not_close) (getDonationCollection env)).
  unfold getDonationCollection. frame.
Qed.

End NoClose.

(** ** Failures on the way to the collection *)

Section CollectionFailures.

Implicit Types (s : State) (env : Env) (d : Db) (name : string) (e : Error).

Lemma drv_listCollections_rejected d name s e :
  hd None (w_script (world s)) = Some e ->
  drv_listCollections d name s = (Throw e, listed d name s).
Proof.
  intros Hhd. unfold drv_listCollections, driver_call, next_outcome, listed.
  simpl. rewrite Hhd. reflexivity.
Qed.

(** A call of [getMongoClient] that throws has written the two lines of
    its [catch] block last. *)
Lemma getMongoClient_throw_trace env s e s' :
  getMongoClient env s = (Throw e, s') ->
  exists evs,
    trace s' = trace s ++ evs ++
      [EvConsole LError ["Failed to connect to MongoDB:"; err_message e];
       EvConsole LError ["Error stack:"; err_stack e]].
Proof.
  intros H. destruct (cached_live s) as [c|] eqn:Hl.
  - rewrite (getMongoClient_cached env s c Hl) in H. discriminate.
  - rewrite getMongoClient_uncached in H by assumption.
    destruct (truthy (MONGODB_URI env)) eqn:Hu.
    + revert H. unfold fresh_connection. rewrite Hu. fresh_cases s;
        intros [= <- <-] || discriminate;
        rewrite <- ?app_assoc; simpl;
        match goal with
        | |- exists evs, ?t ++ ?l = ?t ++ evs ++ [?a; ?b] =>
            exists (take (length l - 2) l); reflexivity
        end.
    + rewrite fresh_connection_no_uri in H by assumption.
      injection H as <- <-. simpl.
      exists [EvConsole LError ["MONGODB_URI environment variable is not set"]].
      reflexivity.
Qed.

(** X6: an error of getMongoClient comes out of getDonationCollection
    unchanged, after each layer has written it to the console: the two
    lines of getMongoClient, then "Failed to get database:", then "Failed
    to get collection:"; nothing is listed or created, the client cache is
    empty and cachedDb and the server are as before. *)
Theorem getDonationCollection_client_failure env s e s1 :
  getMongoClient env s = (Throw e, s1) ->
  exists s' evs,
    getDonationCollection env s = (Throw e, s') /\
    trace s' = trace s ++ evs ++
      [EvConsole LError ["Failed to connect to MongoDB:"; err_message e];
       EvConsole LError ["Error stack:"; err_stack e];
       EvConsole LError ["Failed to get database:"; err_message e];
       EvConsole LError ["Failed to get collection:"; err_message e]] /\
    world s' = world s1 /\
    w_server (world s') = w_server (world s) /\
    cachedClient s' = None /\
    cachedDb s' = cachedDb s.
Proof.
  intros Hrun.
  destruct (getMongoClient_throw_trace _ _ _ _ Hrun) as (evs & Htr).
  pose proof (getMongoClient_throw_clears _ _ _ _ Hrun) as Hcc.
  pose proof (getMongoClient_cachedDb env s) as Hdb.
  pose proof (getDatabase_server env s) as Hsv.
  rewrite getDatabase_unfold in Hsv. rewrite Hrun in Hdb, Hsv. simpl in Hdb, Hsv.
  rewrite getDonationCollection_unfold, getDatabase_unfold, Hrun.
  eexists. exists evs. split; [reflexivity |]. rewrite !emit_trace, !emit_world.
  split; [| split; [reflexivity | split; [exact Hsv | split; assumption]]].
  rewrite Htr, <- !app_assoc. reflexivity.
Qed.

(** X7: when listCollections rejects, or when the collection is missing
    and createCollection rejects, getDonationCollection throws that error
    after the line "Failed to get collection:"; no createIndex is called,
    the server is as it was, and the client and database caches keep what
    getDatabase left, so the next call starts from a warm cache and finds
    the collection still missing. *)
Theorem getDonationCollection_provisioning_failure env s d s1 e :
  getDatabase env s = (Ok d, s1) ->
  hd None (w_script (world s1)) = Some e \/
  (hd None (w_script (world s1)) = None /\
   w_server (world s1) !! (db_name d, collection_name env) = None /\
   hd None (tl (w_script (world s1))) = Some e) ->
  exists s' evs,
    getDonationCollection env s = (Throw e, s') /\
    trace s' = trace s1 ++ evs ++
      [EvConsole LError ["Failed to get collection:"; err_message e]] /\
    Forall (fun ev => is_create_index ev = false) evs /\
    w_server (world s') = w_server (world s1) /\
    cachedClient s' = cachedClient s1 /\
    cachedDb s' = cachedDb s1.
Proof.
  intros Hdb Hfail. rewrite getDonationCollection_unfold, Hdb.
  fold (collection_name env). set (name := collection_name env) in *.
  destruct Hfail as [Hhd | (Hhd & Habs & Hhd2)].
  - unfold provision, bind at 1.
    rewrite (drv_listCollections_rejected d name s1 e Hhd).
    exists (emit (EvConsole LError ["Failed to get collection:"; err_message e])
              (listed d name s1)), [EvListCollections d name].
    split; [reflexivity |].
    split; [unfold listed; simpl; rewrite <- !app_assoc; reflexivity |].
    split; [repeat constructor |]. repeat split.
  - unfold provision, bind at 1.
    rewrite drv_listCollections_ok by exact Hhd. rewrite Habs.
    unfold bind, console, modify. cbn [length Nat.eqb]. cbv beta.
    unfold drv_createCollection, driver_call, next_outcome, listed. simpl.
    rewrite Hhd2. simpl.
    eexists.
    exists [EvListCollections d name;
            EvConsole LLog ["Creating collection: " +:+ name];
            EvCreateCollection d name].
    split; [reflexivity |]. simpl.
    split; [rewrite <- !app_assoc; simpl; reflexivity |].
    split; [repeat constructor |]. repeat split.
Qed.

End CollectionFailures.

(** ** Collections that are already there *)

Section ExistingCollection.

Implicit Types (s : State) (env : Env) (d : Db) (name : string) (e : Error).

Lemma or_default_falsy (v : option string) (dflt : string) :
  truthy v = false -> or_default v dflt = dflt.
Proof.
  destruct v as [x|]; simpl; [| reflexivity].
  destruct (String.eqb x ""); [reflexivity | discriminate].
Qed.

(** What [getDatabase] resolves to. *)
Lemma getDatabase_result env s d s1 :
  getDatabase env s = (Ok d, s1) ->
  exists c,
    cached_live s1 = Some c /\
    cachedDb s1 = Some d /\
    db_name d = resolved_db_name env s /\
    (cachedDb s = None ->
     d = client_db c (or_default (DATABASE_NAME env) "donation_system")).
Proof.
  intros H. rewrite getDatabase_unfold in H. unfold resolved_db_name.
  pose proof (getMongoClient_cachedDb env s) as Hframe.
  destruct (getMongoClient env s) as [[c|e] s0] eqn:Hrun; [| discriminate H].
  pose proof (getMongoClient_ok_live _ _ _ _ Hrun) as Hl.
  simpl in Hframe. rewrite <- Hframe. exists c.
  destruct (cachedDb s0) as [d0|] eqn:Hd0; injection H as <- <-.
  - repeat split; try assumption. discriminate.
  - repeat split; assumption.
Qed.

(** Whether the listing call goes through or rejects, an existing
    collection leaves [provision] with that one call made. *)
Lemma provision_existing d name s :
  is_Some (w_server (world s) !! (db_name d, name)) ->
  snd (provision d name s) = listed d name s /\
  (forall cl, fst (provision d name s) = Ok cl -> cl = db_collection d name).
Proof.
  intros Hex. destruct (hd None (w_script (world s))) as [e|] eqn:Hhd.
  - assert (provision d name s = (Throw e, listed d name s)) as ->.
    { unfold provision, bind at 1.
      rewrite (drv_listCollections_rejected d name s e Hhd). reflexivity. }
    split; [reflexivity | intros cl H; discriminate H].
  - rewrite (provision_present d name s Hhd Hex).
    split; [reflexivity |]. intros cl [= <-]. reflexivity.
Qed.

Lemma listed_no_creation d name s : grows_by not_creation s (listed d name s).
Proof.
  exists [EvListCollections d name]. split; [reflexivity | repeat constructor].
Qed.

Lemma existing_collection_no_creation env s :
  is_Some (w_server (world s) !! (resolved_db_name env s, collection_name env)) ->
  w_server (world (snd (getDonationCollection env s))) = w_server (world s) /\
  grows_by not_creation s (snd (getDonationCollection env s)).
Proof.
  intros Hex. rewrite getDonationCollection_unfold.
  pose proof (getDatabase_server env s) as Hsv.
  pose proof (getDatabase_no_creation env s) as Hgrow.
  destruct (getDatabase env s) as [[d|e] s1] eqn:Hdb; simpl in Hsv, Hgrow.
  - destruct (getDatabase_result _ _ _ _ Hdb) as (c & _ & _ & Hname & _).
    fold (collection_name env). rewrite <- Hname, <- Hsv in Hex.
    destruct (provision_existing d (collection_name env) s1 Hex) as [Hst _].
    destruct (provision d (collection_name env) s1) as [[cl|e] s2];
      simpl in Hst; subst s2; simpl.
    + split; [exact Hsv |]. etransitivity; [exact Hgrow |].
      apply listed_no_creation.
    + split; [exact Hsv |]. etransitivity; [exact Hgrow |].
      etransitivity; [apply listed_no_creation |].
      exists [EvConsole LError ["Failed to get collection:"; err_message e]].
      split; [reflexivity | repeat constructor].
  - simpl. split; [exact Hsv |]. etransitivity; [exact Hgrow |].
    exists [EvConsole LError ["Failed to get collection:"; err_message e]].
    split; [reflexivity | repeat constructor].
Qed.

(** X8: when the collection already exists in the database that
    getDatabase resolves to, getDonationCollection makes no createCollection
    and no createIndex call and leaves the server as it is, whatever the
    driver does and whatever indexes the collection has; when it returns,
    it returns the handle of that collection. *)
Theorem getDonationCollection_existing_never_creates env s :
  is_Some (w_server (world s) !! (resolved_db_name env s, collection_name env)) ->
  w_server (world (snd (getDonationCollection env s))) = w_server (world s) /\
  grows_by not_creation s (snd (getDonationCollection env s)) /\
  forall cl, fst (getDonationCollection env s) = Ok cl ->
    coll_name cl = collection_name env /\
    db_name (coll_db cl) = resolved_db_name env s.
Proof.
  intros Hex.
  destruct (existing_collection_no_creation env s Hex) as [Hsv Hgrow].
  split; [exact Hsv |]. split; [exact Hgrow |].
  intros cl. rewrite getDonationCollection_unfold.
  pose proof (getDatabase_server env s) as Hsv1.
  destruct (getDatabase env s) as [[d|e] s1] eqn:Hdb; [| discriminate].
  destruct (getDatabase_result _ _ _ _ Hdb) as (c & _ & _ & Hname & _).
  fold (collection_name env). simpl in Hsv1.
  rewrite <- Hname, <- Hsv1 in Hex.
  destruct (provision_existing d (collection_name env) s1 Hex) as [_ Hres].
  destruct (provision d (collection_name env) s1) as [[cl'|e] s2];
    [| discriminate].
  intros [= <-]. rewrite (Hres cl' eq_refl). split; [reflexivity | exact Hname].
Qed.

End ExistingCollection.

(** ** Indexes after a failed provisioning *)

Section PartialIndexes.

Implicit Types (s : State) (env : Env) (d : Db) (e : Error).






End PartialIndexes.

(** ** Default names *)

Section Defaults.

Implicit Types (s : State) (env : Env) (d : Db).

Lemma bind_ok {A B} (m : M A) (k : A -> M B) s b s' :
  bind m k s = (Ok b, s') ->
  exists a s1, m s = (Ok a, s1) /\ k a s1 = (Ok b, s').
Proof.
  unfold bind. destruct (m s) as [[a|e] s1]; [eauto | discriminate].
Qed.

Lemma provision_ok d name s cl s' :
  provision d name s = (Ok cl, s') ->
  cl = db_collection d name /\ same_module s s'.
Proof.
  intros H.
  assert (keeps same_module (provision d name)) as Hk.
  { pose proof createIndexes_same_module. unfold provision. frame. }
  specialize (Hk s). rewrite H in Hk. split; [| exact Hk].
  unfold provision in H.
  apply bind_ok in H as (l & s1 & _ & H).
  apply bind_ok in H as (u & s2 & _ & H).
  injection H as <- _. reflexivity.
Qed.

(** X11: with no cached database handle and DATABASE_NAME and
    COLLECTION_NAME missing or empty, a getDonationCollection that returns
    gives the collection "donations" of the database "donation_system",
    bound to the client that is cached afterwards, and that database handle
    is the one now cached. *)
Theorem getDonationCollection_default_names env s cl s' :
  truthy (DATABASE_NAME env) = false ->
  truthy (COLLECTION_NAME env) = false ->
  cachedDb s = None ->
  getDonationCollection env s = (Ok cl, s') ->
  exists c,
    cl = {| coll_db := {| db_client := c; db_name := "donation_system" |};
            coll_name := "donations" |} /\
    cachedClient s' = Some c /\
    cachedDb s' = Some (coll_db cl).
Proof.
  intros Hdn Hcn Hnone H. rewrite getDonationCollection_unfold in H.
  destruct (getDatabase env s) as [[d|e] s1] eqn:Hdb; [| discriminate H].
  destruct (getDatabase_result _ _ _ _ Hdb) as (c & Hl & Hd1 & _ & Hd).
  specialize (Hd Hnone). rewrite (or_default_falsy _ _ Hdn) in Hd.
  rewrite (or_default_falsy _ _ Hcn) in H.
  destruct (provision d "donations" s1) as [[cl'|e] s2] eqn:Hp;
    [| discriminate H].
  injection H as <- <-.
  apply provision_ok in Hp as (-> & Hcc & Hcd & _).
  exists c. subst d. split; [reflexivity |].
  rewrite Hcc, Hcd. split; [by apply cached_live_cachedClient | exact Hd1].
Qed.

End Defaults.

(** ** Teardown, again *)

Section TeardownAgain.

Implicit Types (s : State) (env : Env) (d : Db) (e : Error).

Lemma closeMongoConnection_no_client s :
  cachedClient s = None -> closeMongoConnection s = (Ok tt, s).
Proof.
  intros Hc. unfold closeMongoConnection, bind, get_state. rewrite Hc.
  reflexivity.
Qed.

(** X12: closeMongoConnection always returns normally, and calling it a
    second time changes nothing and calls nothing. *)
Theorem closeMongoConnection_idempotent s :
  fst (closeMongoConnection s) = Ok tt /\
  closeMongoConnection (snd (closeMongoConnection s)) =
    (Ok tt, snd (closeMongoConnection s)).
Proof.
  destruct (cachedClient s) as [c|] eqn:Hc.
  - destruct (closeMongoConnection_cached s c Hc) as (wd & ->).
    split; [reflexivity |]. apply closeMongoConnection_no_client. reflexivity.
  - rewrite (closeMongoConnection_no_client s Hc).
    split; [reflexivity |]. apply closeMongoConnection_no_client. exact Hc.
Qed.

(** X13: after a getMongoClient that threw, closeMongoConnection finds no
    client and does nothing, so a database handle cached before the
    failure survives the teardown, and the next getDatabase that returns
    still returns it. *)
Theorem closeMongoConnection_keeps_stale_db env s e s1 d :
  getMongoClient env s = (Throw e, s1) ->
  cachedDb s = Some d ->
  closeMongoConnection s1 = (Ok tt, s1) /\
  cachedDb (snd (closeMongoConnection s1)) = Some d /\
  forall env' d',
    fst (getDatabase env' (snd (closeMongoConnection s1))) = Ok d' -> d' = d.
Proof.
  intros Hrun Hd.
  pose proof (getMongoClient_throw_clears _ _ _ _ Hrun) as Hcc.
  pose proof (getMongoClient_cachedDb env s) as Hdb.
  rewrite Hrun in Hdb. simpl in Hdb. rewrite Hd in Hdb.
  rewrite (closeMongoConnection_no_client s1 Hcc). cbn [snd].
  split; [reflexivity |]. split; [exact Hdb |].
  intros env' d' Hok.
  pose proof (getDatabase_db_kept env' s1 d Hdb) as Hkept.
  destruct (getDatabase env' s1) as [[d2|e2] s2] eqn:Hget; [| discriminate Hok].
  destruct (getDatabase_result _ _ _ _ Hget) as (_ & _ & Hd2 & _).
  simpl in Hok, Hkept. injection Hok as ->. congruence.
Qed.

End TeardownAgain.

(** ** The health checks *)

Section Health.

Implicit Types (s : State) (env : Env) (e : Error).

(** X14: the health check of the src/ copy returns without touching the
    state and answers ok exactly when MONGODB_URI is set and not empty.
    Its answer says nothing about the connection: it is "not ok" while
    getMongoClient still hands out a live cached client, and "ok" while a
    getMongoClient without a live client fails on a rejected connect. *)
Theorem checkMongoHealth_checks_configuration_only env s :
  exists r,
    checkMongoHealth env s = (Ok r, s) /\
    ok r = truthy (MONGODB_URI env) /\
    (ok r = false ->
     forall c, cached_live s = Some c -> fst (getMongoClient env s) = Ok c) /\
    (ok r = true ->
     forall e rest,
       cached_live s = None ->
       w_script (world s) = None :: Some e :: rest ->
       fst (getMongoClient env s) = Throw e).
Proof.
  unfold checkMongoHealth, try_catch.
  destruct (truthy (MONGODB_URI env)) eqn:Hu; simpl; eexists;
    (split; [reflexivity |]); (split; [reflexivity |]); simpl; split.
  - discriminate.
  - intros _ e rest Hl Hsc. rewrite getMongoClient_uncached by assumption.
    apply (fresh_connection_rejected env s e rest Hu). left. exact Hsc.
  - intros _ c Hl. rewrite (getMongoClient_cached env s c Hl). reflexivity.
  - discriminate.
Qed.

(** X15: the health check of the scr/ copy never throws, whatever its
    getMongoClient and the ping do; it answers ok exactly when the client
    resolved and the ping went through, and otherwise carries the message
    of the error; when the client resolved it has made one ping on it and
    left cachedClient and cachedDb as getMongoClient left them, also when
    the ping rejected. *)
Theorem Scr_checkMongoHealth_folds_errors
  (getClient : Env -> M ClientId) env s :
  exists r s',
    Scr.checkMongoHealth getClient env s = (Ok r, s') /\
    (ok r = true <->
     exists c s1, getClient env s = (Ok c, s1) /\
                  hd None (w_script (world s1)) = None) /\
    (forall e s1, getClient env s = (Throw e, s1) ->
       s' = s1 /\
       r = {| ok := false;
              message := "MongoDB connection failed: " +:+ err_message e |}) /\
    (forall c s1, getClient env s = (Ok c, s1) ->
       cachedClient s' = cachedClient s1 /\
       cachedDb s' = cachedDb s1 /\
       trace s' = trace s1 ++ [EvPing c] /\
       forall e, hd None (w_script (world s1)) = Some e ->
         r = {| ok := false;
                message := "MongoDB connection failed: " +:+ err_message e |}).
Proof.
  unfold Scr.checkMongoHealth, try_catch, bind, drv_ping, driver_call,
    next_outcome.
  destruct (getClient env s) as [[c|e] s1] eqn:Hrun; simpl.
  - destruct (hd None (w_script (world s1))) as [e|] eqn:Hhd; simpl;
      do 2 eexists; (split; [reflexivity |]); simpl.
    + split; [split; [discriminate | intros (c' & s1' & [= <- <-] & H); congruence] |].
      split; [intros e' s1' H; discriminate H |].
      intros c' s1' [= <- <-]. repeat split. intros e' H.
      rewrite Hhd in H. injection H as <-. reflexivity.
    + split; [split; [eauto | reflexivity] |].
      split; [intros e' s1' H; discriminate H |].
      intros c' s1' [= <- <-]. repeat split. intros e' H.
      rewrite Hhd in H. discriminate H.
  - do 2 eexists. split; [reflexivity |]. simpl.
    split; [split; [discriminate | intros (c' & s1' & H & _); discriminate H] |].
    split; [intros e' s1' [= <- <-]; split; reflexivity |].
    intros c' s1' H. discriminate H.
Qed.

End Health.

(** ** The further properties on sample runs *)

Lemma getMongoClient_success_is_live_witness :
  getMongoClient env_full cold = (Ok 0, connected) /\
  cachedClient connected = Some 0 /\
  cached_live connected = Some 0 /\
  forall env',
    getMongoClient env' connected =
      (Ok 0, emit (EvConsole LLog ["Using cached MongoDB connection"]) connected).
Proof.
  assert (H1 : getMongoClient env_full cold = (Ok 0, connected))
    by (vm_compute; reflexivity).
  exact (conj H1 (getMongoClient_success_is_live env_full cold 0 connected H1)).
Defined.

Lemma getMongoClient_falsy_uri_drops_stale_witness :
  (truthy (MONGODB_URI env_empty_uri) = false /\ cached_live dropped = None) /\
  cachedClient dropped = Some 0 /\
  exists s' evs,
    getMongoClient env_empty_uri dropped = (Throw config_error, s') /\
    cachedClient s' = None /\
    cachedDb s' = cachedDb dropped /\
    world s' = world dropped /\
    trace s' = trace dropped ++ evs /\
    Forall (fun ev => is_client_activity ev = false) evs.
Proof.
  assert (H1 : truthy (MONGODB_URI env_empty_uri) = false) by reflexivity.
  assert (H2 : cached_live dropped = None) by (vm_compute; reflexivity).
  assert (H3 : cachedClient dropped = Some 0) by (vm_compute; reflexivity).
  exact (conj (conj H1 H2)
           (conj H3 (getMongoClient_falsy_uri_drops_stale env_empty_uri dropped
                       H1 H2))).
Defined.

Lemma getMongoClient_ping_failure_leaves_connection_witness :
  (cached_live cold_ping_fails = None /\
   truthy (MONGODB_URI env_full) = true /\
   w_script (world cold_ping_fails) = None :: None :: Some boom :: []) /\
  exists s' evs,
    getMongoClient env_full cold_ping_fails = (Throw boom, s') /\
    cachedClient s' = None /\
    topology_isConnected (world s') (w_next (world cold_ping_fails)) = true /\
    trace s' = trace cold_ping_fails ++ evs /\
    filter (fun ev => is_client_activity ev = true) evs =
      [EvNewClient (w_next (world cold_ping_fails))
         (or_default (MONGODB_URI env_full) "") client_options;
       EvConnect (w_next (world cold_ping_fails));
       EvPing (w_next (world cold_ping_fails))].
Proof.
  assert (H1 : cached_live cold_ping_fails = None) by reflexivity.
  assert (H2 : truthy (MONGODB_URI env_full) = true) by reflexivity.
  assert (H3 : w_script (world cold_ping_fails) = None :: None :: Some boom :: [])
    by reflexivity.
  exact (conj (conj H1 (conj H2 H3))
           (getMongoClient_ping_failure_leaves_connection env_full
              cold_ping_fails boom [] H1 H2 H3)).
Defined.

Lemma getDatabase_returns_handle_of_old_client_witness :
  (cachedDb dropped = Some testdb /\
   db_client testdb < w_next (world dropped) /\
   cached_live dropped = None /\
   getMongoClient env_full dropped =
     (Ok 1, snd (getMongoClient env_full dropped))) /\
  getDatabase env_full dropped = (Ok testdb, snd (getMongoClient env_full dropped)) /\
  cachedClient (snd (getMongoClient env_full dropped)) = Some 1 /\
  db_client testdb <> 1.
Proof.
  assert (H1 : cachedDb dropped = Some testdb) by (vm_compute; reflexivity).
  assert (H2 : db_client testdb < w_next (world dropped))
    by (vm_compute; repeat constructor).
  assert (H3 : cached_live dropped = None) by (vm_compute; reflexivity).
  assert (H4 : getMongoClient env_full dropped =
                 (Ok 1, snd (getMongoClient env_full dropped)))
    by (vm_compute; reflexivity).
  exact (conj (conj H1 (conj H2 (conj H3 H4)))
           (getDatabase_returns_handle_of_old_client env_full dropped testdb 1 _
              H1 H2 H3 H4)).
Defined.

Lemma getDonationCollection_client_failure_witness :
  getMongoClient env_no_uri cold =
    (Throw config_error, snd (getMongoClient env_no_uri cold)) /\
  exists s',
    getDonationCollection env_no_uri cold = (Throw config_error, s') /\
    cachedClient s' = None /\
    cachedDb s' = cachedDb cold.
Proof.
  assert (H1 : getMongoClient env_no_uri cold =
                 (Throw config_error, snd (getMongoClient env_no_uri cold)))
    by (vm_compute; reflexivity).
  destruct (getDonationCollection_client_failure env_no_uri cold config_error _ H1)
    as (s' & evs & Hrun & _ & _ & _ & Hcc & Hdb).
  split; [exact H1 |]. exists s'. exact (conj Hrun (conj Hcc Hdb)).
Defined.

Lemma getDonationCollection_provisioning_failure_witness :
  (getDatabase env_full cold_list_fails =
     (Ok testdb, snd (getDatabase env_full cold_list_fails)) /\
   hd None (w_script (world (snd (getDatabase env_full cold_list_fails))))
     = Some boom) /\
  exists s',
    getDonationCollection env_full cold_list_fails = (Throw boom, s') /\
    w_server (world s') =
      w_server (world (snd (getDatabase env_full cold_list_fails))) /\
    cachedClient s' = cachedClient (snd (getDatabase env_full cold_list_fails)) /\
    cachedDb s' = cachedDb (snd (getDatabase env_full cold_list_fails)).
Proof.
  assert (H1 : getDatabase env_full cold_list_fails =
                 (Ok testdb, snd (getDatabase env_full cold_list_fails)))
    by (vm_compute; reflexivity).
  assert (H2 : hd None (w_script (world (snd (getDatabase env_full cold_list_fails))))
                 = Some boom) by (vm_compute; reflexivity).
  destruct (getDonationCollection_provisioning_failure env_full cold_list_fails
              testdb _ boom H1 (or_introl H2))
    as (s' & evs & Hrun & _ & _ & Hsv & Hcc & Hdb).
  split; [exact (conj H1 H2) |]. exists s'.
  exact (conj Hrun (conj Hsv (conj Hcc Hdb))).
Defined.

Lemma getDonationCollection_existing_never_creates_witness :
  is_Some (w_server (world provisioned_full) !!
             (resolved_db_name env_other_db provisioned_full,
              collection_name env_other_db)) /\
  w_server (world (snd (getDonationCollection env_other_db provisioned_full))) =
    w_server (world provisioned_full) /\
  grows_by not_creation provisioned_full
    (snd (getDonationCollection env_other_db provisioned_full)).
Proof.
  assert (H1 : is_Some (w_server (world provisioned_full) !!
                          (resolved_db_name env_other_db provisioned_full,
                           collection_name env_other_db)))
    by (exists donation_indexes; vm_compute; reflexivity).
  destruct (getDonationCollection_existing_never_creates env_other_db
              provisioned_full H1) as (Hsv & Hgrow & _).
  exact (conj H1 (conj Hsv Hgrow)).
Defined.


Lemma getDonationCollection_default_names_witness :
  (truthy (DATABASE_NAME env_defaults) = false /\
   truthy (COLLECTION_NAME env_defaults) = false /\
   cachedDb cold = None /\
   getDonationCollection env_defaults cold =
     (Ok {| coll_db := {| db_client := 0; db_name := "donation_system" |};
            coll_name := "donations" |},
      snd (getDonationCollection env_defaults cold))) /\
  exists c,
    {| coll_db := {| db_client := 0; db_name := "donation_system" |};
       coll_name := "donations" |} =
    {| coll_db := {| db_client := c; db_name := "donation_system" |};
       coll_name := "donations" |} /\
    cachedClient (snd (getDonationCollection env_defaults cold)) = Some c /\
    cachedDb (snd (getDonationCollection env_defaults cold)) =
      Some {| db_client := 0; db_name := "donation_system" |}.
Proof.
  assert (H1 : truthy (DATABASE_NAME env_defaults) = false) by reflexivity.
  assert (H2 : truthy (COLLECTION_NAME env_defaults) = false) by reflexivity.
  assert (H3 : cachedDb cold = None) by reflexivity.
  assert (H4 : getDonationCollection env_defaults cold =
                 (Ok {| coll_db := {| db_client := 0; db_name := "donation_system" |};
                        coll_name := "donations" |},
                  snd (getDonationCollection env_defaults cold)))
    by (vm_compute; reflexivity).
  exact (conj (conj H1 (conj H2 (conj H3 H4)))
           (getDonationCollection_default_names env_defaults cold _ _ H1 H2 H3 H4)).
Defined.

Lemma closeMongoConnection_keeps_stale_db_witness :
  (getMongoClient env_no_uri dropped =
     (Throw config_error, snd (getMongoClient env_no_uri dropped)) /\
   cachedDb dropped = Some testdb) /\
  closeMongoConnection (snd (getMongoClient env_no_uri dropped)) =
    (Ok tt, snd (getMongoClient env_no_uri dropped)) /\
  cachedDb (snd (closeMongoConnection (snd (getMongoClient env_no_uri dropped))))
    = Some testdb.
Proof.
  assert (H1 : getMongoClient env_no_uri dropped =
                 (Throw config_error, snd (getMongoClient env_no_uri dropped)))
    by (vm_compute; reflexivity).
  assert (H2 : cachedDb dropped = Some testdb) by (vm_compute; reflexivity).
  destruct (closeMongoConnection_keeps_stale_db env_no_uri dropped config_error
              _ testdb H1 H2) as (Hclose & Hdb & _).
  exact (conj (conj H1 H2) (conj Hclose Hdb)).
Defined.
